(** * Find_GitHub_UserNames: the search-and-record pipeline

    A shallow embedding of [search_github] and [save_to_excel] from
    [Find_GitHub_UserNames.py], and the properties its specification states
    about them.

    The two functions talk to the outside world (one HTTP request, a clock,
    a log file, one workbook on disk).  They are embedded in a small monad
    that threads a [world] (requests sent, log lines written, the workbook)
    and that can raise a Python exception; what the outside world answers is
    read from an [env].  A raised exception keeps the world as it was at
    the raise, as in Python. *)

From Stdlib Require Import String Ascii ZArith List Bool Lia DecimalString.
Import ListNotations.
Local Open Scope string_scope.
Local Open Scope Z_scope.

(** ** Python values and strings *)

(** The values [response.json()] can return. A dict is kept as its items
    in insertion order, with distinct keys. A float is kept as its bit
    pattern: the code only passes it on. *)
#[local] Set Warnings "-register-all".
Inductive pyval : Type :=
| PyNone
| PyBool (b : bool)
| PyInt (n : Z)
| PyFloat (bits : Z)
| PyStr (s : string)
| PyList (items : list pyval)
| PyDict (entries : list (string * pyval)).

(** [type(v).__name__] *)
Definition type_name (v : pyval) : string :=
  match v with
  | PyNone => "NoneType"
  | PyBool _ => "bool"
  | PyInt _ => "int"
  | PyFloat _ => "float"
  | PyStr _ => "str"
  | PyList _ => "list"
  | PyDict _ => "dict"
  end.

(** Truth value of a string: [if query], [if token]. *)
Definition truthy (s : string) : bool :=
  match s with
  | EmptyString => false
  | String _ _ => true
  end.

(** Truth value of an optional string ([None] is false). *)
Definition truthy_opt (t : option string) : bool :=
  match t with
  | None => false
  | Some s => truthy s
  end.

(** [repr(s)] of a string without quotes, backslashes or control
    characters. *)
Definition py_repr (s : string) : string := "'" ++ s ++ "'".

(** [str(n)] of an int. *)
Definition str_of_int (n : Z) : string := NilZero.string_of_int (Z.to_int n).

Definition ascii_code (c : ascii) : Z := Z.of_nat (nat_of_ascii c).

Definition is_digit (c : ascii) : bool :=
  (48 <=? ascii_code c) && (ascii_code c <=? 57).

(** The characters [str.strip()] strips: the white space among the code
    points below 256. *)
Definition is_space (c : ascii) : bool :=
  let n := ascii_code c in
  (n =? 32) || ((9 <=? n) && (n <=? 13)) || ((28 <=? n) && (n <=? 31))
  || (n =? 133) || (n =? 160).

(** The characters [int()] accepts around a literal: the ASCII white space,
    and the white space from 128 on, which it first turns into a space. The
    separators 28 to 31 are not among them. *)
Definition is_int_space (c : ascii) : bool :=
  let n := ascii_code c in
  (n =? 32) || ((9 <=? n) && (n <=? 13)) || (n =? 133) || (n =? 160).

(** The lower case of a letter: A to Z, and the capital letters from 192 to
    222 (215 is the multiplication sign). *)
Definition lower_ascii (c : ascii) : ascii :=
  let n := ascii_code c in
  if ((65 <=? n) && (n <=? 90))
     || ((192 <=? n) && (n <=? 222) && negb (n =? 215))
  then ascii_of_nat (Z.to_nat (n + 32)) else c.

(** The capital of a letter whose capital is one code point below 256: a to
    z, and the small letters from 224 to 254 (247 is the division sign). *)
Definition upper_ascii (c : ascii) : ascii :=
  let n := ascii_code c in
  if ((97 <=? n) && (n <=? 122))
     || ((224 <=? n) && (n <=? 254) && negb (n =? 247))
  then ascii_of_nat (Z.to_nat (n - 32)) else c.

Fixpoint map_string (f : ascii -> ascii) (s : string) : string :=
  match s with
  | EmptyString => EmptyString
  | String c r => String (f c) (map_string f r)
  end.

(** [s.lower()] *)
Definition lower (s : string) : string := map_string lower_ascii s.

(** [s.capitalize()]: the first character in title case, the rest in lower
    case. The title case of the sharp s (223) is [Ss]. The capitals of the
    micro sign (181) and of the y with diaeresis (255) are code points from
    256 on, which a string here cannot hold: these two first characters
    are left as they are. *)
Definition capitalize (s : string) : string :=
  match s with
  | EmptyString => EmptyString
  | String c r =>
      if ascii_code c =? 223 then String "S" (String "s" (lower r))
      else String (upper_ascii c) (lower r)
  end.

Fixpoint lstrip (s : string) : string :=
  match s with
  | EmptyString => EmptyString
  | String c r => if is_space c then lstrip r else s
  end.

Definition reverse (s : string) : string :=
  string_of_list_ascii (rev (list_ascii_of_string s)).

Definition strip (s : string) : string :=
  reverse (lstrip (reverse (lstrip s))).

Fixpoint int_lstrip (s : string) : string :=
  match s with
  | EmptyString => EmptyString
  | String c r => if is_int_space c then int_lstrip r else s
  end.

(** A literal without the white space [int()] accepts around it. *)
Definition int_strip (s : string) : string :=
  reverse (int_lstrip (reverse (int_lstrip s))).

(** The digits of a decimal literal, most significant first. An underscore
    is accepted between two digits only. [after_digit] tells whether the
    character just read was a digit. *)
Fixpoint digits_value (acc : Z) (after_digit : bool) (s : string) : option Z :=
  match s with
  | EmptyString => if after_digit then Some acc else None
  | String c r =>
      if is_digit c then digits_value (10 * acc + (ascii_code c - 48)) true r
      else if Ascii.eqb c "_" then
             if after_digit then digits_value acc false r else None
           else None
  end.

(** The number of digits of a literal. *)
Definition count_digits (s : string) : Z :=
  Z.of_nat (List.length (filter is_digit (list_ascii_of_string s))).

(** The value of a well-formed decimal literal: blanks around it, a sign,
    digits. *)
Definition literal_value (s : string) : option Z :=
  match int_strip s with
  | String "+" r => digits_value 0 false r
  | String "-" r => option_map Z.opp (digits_value 0 false r)
  | t => digits_value 0 false t
  end.

(** [sep.join(parts)] *)
Fixpoint join (sep : string) (parts : list string) : string :=
  match parts with
  | [] => ""
  | [p] => p
  | p :: rest => p ++ sep ++ join sep rest
  end.

(** ** Exceptions *)

(** The exception classes the two functions can meet. The first four are
    [requests.exceptions.RequestException] and subclasses of it; every class
    here is a subclass of [Exception]. *)
Inductive exn_class : Type :=
| RequestException
| ConnectionError
| Timeout
| HTTPError
| KeyError
| ValueError
| TypeError
| AttributeError
| OSError
| OtherException.

(** An exception: its class and [str(e)]. *)
Record exn : Type := Exn { exn_cls : exn_class; exn_str : string }.

Definition isinstance_RequestException (e : exn) : bool :=
  match exn_cls e with
  | RequestException | ConnectionError | Timeout | HTTPError => true
  | _ => false
  end.

Definition isinstance_Exception (e : exn) : bool :=
  match exn_cls e with
  | RequestException | ConnectionError | Timeout | HTTPError
  | KeyError | ValueError | TypeError | AttributeError | OSError
  | OtherException => true
  end.

(** ** The outside world *)

Inductive level : Type := INFO | WARNING | ERROR.

(** One call of [requests.get]. *)
Record request : Type := Request {
  req_method : string;
  req_url : string;
  req_headers : list (string * string);
  req_params : list (string * string);
  req_timeout : Z
}.

(** A [requests.Response]: [headers] is its case-insensitive dict (distinct
    names), [json] is what [response.json()] does. *)
Record response : Type := Response {
  status_code : Z;
  headers : list (string * string);
  reason : string;
  resp_url : string;
  json : exn + pyval
}.

(** [datetime.now()] *)
Record datetime : Type := Datetime {
  year : Z; month : Z; day : Z; hour : Z; minute : Z; second : Z
}.

(** A cell of the workbook: text, a number, a boolean, or nothing (what
    pandas calls NaN). *)
Inductive cell : Type :=
| CStr (s : string)
| CInt (n : Z)
| CFloat (bits : Z)
| CBool (b : bool)
| CNaN.

(** One row of the workbook, in column order:
    Timestamp, Search Type, Input, Results, Result Count. *)
Record row : Type := Row {
  Timestamp : cell;
  Search_Type : cell;
  Input : cell;
  Results : cell;
  Result_Count : cell
}.

(** The file [RESULTS_FILE] when it exists: a workbook holding a table
    (the rows of the sheet under the header line, down to the last row that
    has a cell), or bytes that [pd.read_excel] cannot read. *)
Inductive file : Type :=
| Workbook (table : list row)
| Corrupt.

(** What the calls leave behind: the requests sent (oldest first), the log
    lines (oldest first), and the workbook ([None]: no such file). *)
Record world : Type := World {
  sent : list request;
  log : list (level * string);
  store : option file
}.

(** What a failed write leaves behind: the file as it was, or a file in
    another state (truncated, half written with other rows, unreadable). *)
Inductive aftermath : Type :=
| Untouched
| Left_as (f : option file).

(** What the outside answers during one call: the outcome of the HTTP
    request, [int(time.time())], [datetime.now()], and what pandas does with
    the workbook: the failures of reading and of writing it, the exception
    it raises on a file it cannot read, and the value it infers for a cell
    when it reads the file back, which depends on the cell and on the cells
    of its column (a column of texts that all look like numbers is read as
    numbers, a text such as [null] as nothing). *)
Record env : Type := Env {
  network : request -> exn + response;
  time_time : Z;
  datetime_now : datetime;
  read_fault : option exn;
  write_fault : option (exn * aftermath);
  unreadable_error : exn;
  infer : list cell -> cell -> cell
}.

(** ** The monad *)

Inductive outcome (A : Type) : Type :=
| Return (a : A)
| Raise (e : exn).
Arguments Return {A} a.
Arguments Raise {A} e.

Definition M (A : Type) : Type := world -> outcome A * world.

Definition ret {A} (a : A) : M A := fun w => (Return a, w).

Definition raise {A} (e : exn) : M A := fun w => (Raise e, w).

Definition bind {A B} (m : M A) (k : A -> M B) : M B :=
  fun w =>
    match m w with
    | (Return a, w') => k a w'
    | (Raise e, w') => (Raise e, w')
    end.

(** [try: body  except ... as e: handler e] *)
Definition try_except {A} (body : M A) (handler : exn -> M A) : M A :=
  fun w =>
    match body w with
    | (Return a, w') => (Return a, w')
    | (Raise e, w') => handler e w'
    end.

Declare Scope py_scope.
Delimit Scope py_scope with py.
Notation "x <- m ;; k" := (bind m (fun x => k))
  (at level 61, m at next level, right associativity) : py_scope.
Notation "m ;; k" := (bind m (fun _ => k))
  (at level 61, right associativity) : py_scope.
Local Open Scope py_scope.

(** An operation that yields [Some a] or raises. *)
Definition lift {A} (r : exn + A) : M A :=
  match r with
  | inl e => raise e
  | inr a => ret a
  end.

(** [for x in xs: ... append (f x)] *)
Fixpoint for_each {A B} (f : A -> M B) (xs : list A) : M (list B) :=
  match xs with
  | [] => ret []
  | x :: rest => y <- f x ;; ys <- for_each f rest ;; ret (y :: ys)
  end.

Definition logger (lv : level) (msg : string) : M unit :=
  fun w => (Return tt, World (sent w) (log w ++ [(lv, msg)]) (store w)).

(** ** Operations of Python and of the libraries the code calls *)

(** [name in response.headers] and [response.headers[name]]: names compare
    without regard to case; the dict of requests looks up [name.lower()],
    and that is the key of its KeyError. *)
Fixpoint headers_get (name : string) (hs : list (string * string)) : option string :=
  match hs with
  | [] => None
  | (k, v) :: rest =>
      if String.eqb (lower k) (lower name) then Some v else headers_get name rest
  end.

Definition headers_contains (name : string) (hs : list (string * string)) : bool :=
  match headers_get name hs with
  | Some _ => true
  | None => false
  end.

Definition headers_getitem (hs : list (string * string)) (name : string) : M string :=
  match headers_get name hs with
  | Some v => ret v
  | None => raise (Exn KeyError (py_repr (lower name)))
  end.

(** What [int(s)] does on a [str], in base 10: the value, or the
    ValueError of a malformed literal, or that of a literal of more than
    4300 digits (the default limit of CPython). *)
Definition int_result (s : string) : exn + Z :=
  match literal_value s with
  | Some n =>
      if 4300 <? count_digits s then
        inl (Exn ValueError
               ("Exceeds the limit (4300 digits) for integer string conversion: value has "
                ++ str_of_int (count_digits s)
                ++ " digits; use sys.set_int_max_str_digits() to increase the limit"))
      else inr n
  | None =>
      inl (Exn ValueError
             ("invalid literal for int() with base 10: " ++ py_repr s))
  end.

(** [int(s)] *)
Definition int (s : string) : M Z := lift (int_result s).

(** The number a string reads as, if [int] accepts it. *)
Definition py_int (s : string) : option Z :=
  match int_result s with
  | inr n => Some n
  | inl _ => None
  end.

Fixpoint dict_lookup (key : string) (entries : list (string * pyval)) : option pyval :=
  match entries with
  | [] => None
  | (k, v) :: rest => if String.eqb k key then Some v else dict_lookup key rest
  end.

(** [v.get(key, default)] *)
Definition py_get (v : pyval) (key : string) (default : pyval) : M pyval :=
  match v with
  | PyDict entries =>
      match dict_lookup key entries with
      | Some x => ret x
      | None => ret default
      end
  | _ =>
      raise (Exn AttributeError
               ("'" ++ type_name v ++ "' object has no attribute 'get'"))
  end.

(** [len(v)] *)
Definition len (v : pyval) : M Z :=
  match v with
  | PyStr s => ret (Z.of_nat (String.length s))
  | PyList items => ret (Z.of_nat (List.length items))
  | PyDict entries => ret (Z.of_nat (List.length entries))
  | _ => raise (Exn TypeError ("object of type '" ++ type_name v ++ "' has no len()"))
  end.

(** The values [for user in v] goes through. *)
Definition iterate (v : pyval) : M (list pyval) :=
  match v with
  | PyList items => ret items
  | PyStr s => ret (map (fun c => PyStr (String c "")) (list_ascii_of_string s))
  | PyDict entries => ret (map (fun kv => PyStr (fst kv)) entries)
  | _ => raise (Exn TypeError ("'" ++ type_name v ++ "' object is not iterable"))
  end.

(** [v[key]] with a string key. *)
Definition getitem (v : pyval) (key : string) : M pyval :=
  match v with
  | PyDict entries =>
      match dict_lookup key entries with
      | Some x => ret x
      | None => raise (Exn KeyError (py_repr key))
      end
  | PyStr _ => raise (Exn TypeError "string indices must be integers, not 'str'")
  | PyList _ =>
      raise (Exn TypeError "list indices must be integers or slices, not str")
  | _ => raise (Exn TypeError ("'" ++ type_name v ++ "' object is not subscriptable"))
  end.

(** [requests.get(url, headers=, params=, timeout=)]: the request is sent
    and the environment answers. *)
Definition requests_get (E : env) (url : string) (hs params : list (string * string))
    (timeout : Z) : M response :=
  let rq := Request "GET" url hs params timeout in
  fun w =>
    (match network E rq with
     | inl e => Raise e
     | inr r => Return r
     end,
     World (sent w ++ [rq]) (log w) (store w)).

(** [response.raise_for_status()] of requests: HTTPError on 4xx and 5xx. *)
Definition raise_for_status (r : response) : M unit :=
  if (400 <=? status_code r) && (status_code r <? 500) then
    raise (Exn HTTPError
             (str_of_int (status_code r) ++ " Client Error: " ++ reason r
              ++ " for url: " ++ resp_url r))
  else if (500 <=? status_code r) && (status_code r <? 600) then
    raise (Exn HTTPError
             (str_of_int (status_code r) ++ " Server Error: " ++ reason r
              ++ " for url: " ++ resp_url r))
  else ret tt.

(** ** search_github *)

(** The dict built for each user found. *)
Record user_data : Type := UserData {
  login : pyval;
  url : pyval;
  avatar_url : pyval;
  type : pyval
}.

(** The rate-limit test of [search_github]: [Some result] where the code
    returns from inside it, [None] where it goes on. *)
Definition rate_limit (E : env) (response : response)
  : M (option (list user_data * option string)) :=
  if (status_code response =? 403)
     && headers_contains "X-RateLimit-Remaining" (headers response) then
    remaining <- (v <- headers_getitem (headers response) "X-RateLimit-Remaining" ;; int v) ;;
    if remaining =? 0 then
      reset_time <- (v <- headers_getitem (headers response) "X-RateLimit-Reset" ;; int v) ;;
      let wait_time := Z.max 0 (reset_time - time_time E) in
      logger WARNING ("Rate limit exceeded. Waiting for " ++ str_of_int wait_time
                      ++ " seconds") ;;
      ret (Some ([], Some ("GitHub API rate limit exceeded. Try again in "
                           ++ str_of_int wait_time ++ " seconds or use a token.")))
    else ret None
  else ret None.

(** The body of the loop over the items. *)
Definition user_of_item (user : pyval) : M user_data :=
  a <- getitem user "login" ;;
  b <- getitem user "html_url" ;;
  c <- getitem user "avatar_url" ;;
  d <- getitem user "type" ;;
  ret (UserData a b c d).

(** The headers of the request. *)
Definition request_headers (token : option string) : list (string * string) :=
  let headers := [("Accept", "application/vnd.github.v3+json")] in
  if truthy_opt token then
    headers ++ [("Authorization",
                 "token " ++ match token with Some t => t | None => "" end)]
  else headers.

Definition search_github (E : env) (search_type query : string) (token : option string)
  : M (list user_data * option string) :=
  if negb (truthy query) then
    logger WARNING ("Empty " ++ search_type ++ " provided") ;;
    ret ([], Some "No query provided")
  else
    let headers := request_headers token in
    let params := [("q", query ++ " in:" ++ search_type)] in
    try_except
      (response <- requests_get E "https://api.github.com/search/users"
                     headers params 10 ;;
       limited <- rate_limit E response ;;
       match limited with
       | Some result => ret result
       | None =>
           raise_for_status response ;;
           results <- lift (json response) ;;
           result_count <- (items <- py_get results "items" (PyList []) ;; len items) ;;
           logger INFO (capitalize search_type ++ " search for '" ++ query
                        ++ "' found " ++ str_of_int result_count ++ " results") ;;
           users <- (items <- py_get results "items" (PyList []) ;;
                     its <- iterate items ;;
                     for_each user_of_item its) ;;
           ret (users, None)
       end)
      (fun e =>
         if isinstance_RequestException e then
           let error_msg := "Request error searching by " ++ search_type ++ ": "
                            ++ exn_str e in
           logger ERROR error_msg ;;
           ret ([], Some error_msg)
         else if isinstance_Exception e then
           let error_msg := "Error searching by " ++ search_type ++ ": "
                            ++ exn_str e in
           logger ERROR error_msg ;;
           ret ([], Some error_msg)
         else raise e).

(** The request [search_github] sends for a non-empty query. *)
Definition search_request (search_type query : string) (token : option string)
  : request :=
  Request "GET" "https://api.github.com/search/users" (request_headers token)
    [("q", query ++ " in:" ++ search_type)] 10.

(** ** save_to_excel *)

Fixpoint zeros (n : nat) : string :=
  match n with
  | O => ""
  | S k => String "0" (zeros k)
  end.

(** A number printed with [%02d]: padded with zeros to [width]. *)
Definition zero_padded (width : nat) (n : Z) : string :=
  let s := str_of_int n in
  zeros (width - String.length s) ++ s.

(** [d.strftime("%Y-%m-%d %H:%M:%S")], for the years from 1000 on (a
    four-digit [%Y] whatever the C library). *)
Definition strftime (d : datetime) : string :=
  str_of_int (year d) ++ "-" ++ zero_padded 2 (month d) ++ "-"
  ++ zero_padded 2 (day d) ++ " " ++ zero_padded 2 (hour d) ++ ":"
  ++ zero_padded 2 (minute d) ++ ":" ++ zero_padded 2 (second d).

(** The items of [sep.join(values)]: every one must be a [str]. *)
Fixpoint str_items (i : Z) (values : list pyval) : exn + list string :=
  match values with
  | [] => inr []
  | PyStr s :: rest =>
      match str_items (i + 1) rest with
      | inr ss => inr (s :: ss)
      | inl e => inl e
      end
  | v :: _ =>
      inl (Exn TypeError
             ("sequence item " ++ str_of_int i ++ ": expected str instance, "
              ++ type_name v ++ " found"))
  end.

(** The one-row DataFrame built before the [try]. *)
Definition new_entry (E : env) (search_type input_data : string)
    (results : list user_data) : exn + row :=
  let timestamp := strftime (datetime_now E) in
  let usernames := map login results in
  match
    (match usernames with
     | [] => inr "No results"
     | _ :: _ =>
         match str_items 0 usernames with
         | inr ss => inr (join ", " ss)
         | inl e => inl e
         end
     end)
  with
  | inr summary =>
      inr (Row (CStr timestamp) (CStr search_type) (CStr input_data)
             (CStr summary) (CInt (Z.of_nat (List.length results))))
  | inl e => inl e
  end.

(** [os.path.exists(RESULTS_FILE)] *)
Definition os_path_exists : M bool :=
  fun w =>
    (Return (match store w with Some _ => true | None => false end), w).

(** One column of a table as pandas reads it back. *)
Definition read_column (E : env) (column : row -> cell) (table : list row)
    (r : row) : cell :=
  infer E (map column table) (column r).

(** A table as pandas reads it back: as many rows, in the same order, each
    cell with the value inferred for it in its column. (Rows are neither
    dropped nor added: pandas keeps a blank row between others, and the
    last row of a table the code writes is the new entry, which has its
    timestamp and its count.) *)
Definition read_back (E : env) (table : list row) : list row :=
  map (fun r =>
         Row (read_column E Timestamp table r) (read_column E Search_Type table r)
             (read_column E Input table r) (read_column E Results table r)
             (read_column E Result_Count table r))
      table.

(** [pd.read_excel(RESULTS_FILE)]: the table the workbook holds, read
    back. *)
Definition read_excel (E : env) : M (list row) :=
  fun w =>
    match read_fault E with
    | Some e => (Raise e, w)
    | None =>
        match store w with
        | Some (Workbook table) => (Return (read_back E table), w)
        | Some Corrupt => (Raise (unreadable_error E), w)
        | None =>
            (Raise (Exn OSError
                      "[Errno 2] No such file or directory: 'github_search_results.xlsx'"),
             w)
        end
    end.

(** [df.to_excel(RESULTS_FILE, index=False)]: the file is overwritten
    with the cells of the table. *)
Definition to_excel (E : env) (table : list row) : M unit :=
  fun w =>
    match write_fault E with
    | Some (e, after) =>
        (Raise e,
         World (sent w) (log w)
           (match after with
            | Untouched => store w
            | Left_as f => f
            end))
    | None => (Return tt, World (sent w) (log w) (Some (Workbook table)))
    end.

(** The read-modify-write cycle inside the [try]. *)
Definition read_modify_write (E : env) (new_entry : row) : M unit :=
  updated_df <- (file_exists <- os_path_exists ;;
                 if file_exists then
                   df <- read_excel E ;;
                   ret (df ++ [new_entry])%list
                 else ret [new_entry]) ;;
  to_excel E updated_df.

Definition save_to_excel (E : env) (search_type input_data : string)
    (results : list user_data) : M bool :=
  entry <- lift (new_entry E search_type input_data results) ;;
  try_except
    (read_modify_write E entry ;;
     logger INFO "Results saved to 'github_search_results.xlsx'" ;;
     ret true)
    (fun e =>
       if isinstance_Exception e then
         logger ERROR ("Error saving to Excel: " ++ exn_str e) ;;
         ret false
       else raise e).

(** Calls of [save_to_excel] one after the other: each has its own
    environment and arguments. *)
Record call : Type := Call {
  call_env : env;
  call_search_type : string;
  call_input : string;
  call_results : list user_data
}.

Definition save_call (c : call) : M bool :=
  save_to_excel (call_env c) (call_search_type c) (call_input c) (call_results c).

(** ** Views of the code used in the statements *)

(** What the [try] block of [search_github] does once [requests.get] has
    answered. *)
Definition after_response (E : env) (search_type query : string) (response : response)
  : M (list user_data * option string) :=
  limited <- rate_limit E response ;;
  match limited with
  | Some result => ret result
  | None =>
      raise_for_status response ;;
      results <- lift (json response) ;;
      result_count <- (items <- py_get results "items" (PyList []) ;; len items) ;;
      logger INFO (capitalize search_type ++ " search for '" ++ query
                   ++ "' found " ++ str_of_int result_count ++ " results") ;;
      users <- (items <- py_get results "items" (PyList []) ;;
                its <- iterate items ;;
                for_each user_of_item its) ;;
      ret (users, None)
  end.

(** The two [except] clauses of [search_github]. *)
Definition on_error (search_type : string) (e : exn)
  : M (list user_data * option string) :=
  if isinstance_RequestException e then
    let error_msg := "Request error searching by " ++ search_type ++ ": "
                     ++ exn_str e in
    logger ERROR error_msg ;;
    ret ([], Some error_msg)
  else if isinstance_Exception e then
    let error_msg := "Error searching by " ++ search_type ++ ": "
                     ++ exn_str e in
    logger ERROR error_msg ;;
    ret ([], Some error_msg)
  else raise e.

(** The prefix of the error message of each [except] clause. *)
Definition context (search_type : string) (e : exn) : string :=
  if isinstance_RequestException e then "Request error searching by " ++ search_type
  else "Error searching by " ++ search_type.

(** The message of the rate-limit branch. *)
Definition rate_limit_message (wait_time : Z) : string :=
  "GitHub API rate limit exceeded. Try again in " ++ str_of_int wait_time
  ++ " seconds or use a token.".

(** The world after the request [rq] has been sent. *)
Definition requested (rq : request) (w : world) : world :=
  World (sent w ++ [rq]) (log w) (store w).

(** The world after [msg] has been logged. *)
Definition logged (lv : level) (msg : string) (w : world) : world :=
  World (sent w) (log w ++ [(lv, msg)]) (store w).

(** The world after [table] has been written to the workbook. *)
Definition written (table : list row) (w : world) : world :=
  World (sent w) (log w) (Some (Workbook table)).

(** The rows of the workbook; none when there is no file. *)
Definition table_of (f : option file) : list row :=
  match f with
  | Some (Workbook table) => table
  | _ => []
  end.

(** [sent_grows_by l m]: running [m] sends exactly the requests [l], whether
    it returns or raises. *)
Definition sent_grows_by {A} (l : list request) (m : M A) : Prop :=
  forall w, sent (snd (m w)) = (sent w ++ l)%list.

(** ** Predicates of the statements *)

(** The two kinds of search the docstring of [search_github] names. *)
Inductive kind : Type := Email | Name.

Definition kind_str (k : kind) : string :=
  match k with
  | Email => "email"
  | Name => "name"
  end.

(** The response is a 403 whose remaining-quota header reads as the
    number 0. *)
Definition quota_exhausted (r : response) : Prop :=
  status_code r = 403 /\
  exists v, headers_get "X-RateLimit-Remaining" (headers r) = Some v
            /\ py_int v = Some 0.

(** The rate-limit case: the quota is exhausted and the reset header reads
    as a number. *)
Definition rate_limited (r : response) : Prop :=
  quota_exhausted r /\
  exists v reset, headers_get "X-RateLimit-Reset" (headers r) = Some v
                  /\ py_int v = Some reset.

(** Some character of [s] is a digit. *)
Definition has_digit (s : string) : bool :=
  existsb is_digit (list_ascii_of_string s).

(** The payload item [item] is an object that carries the four upstream
    fields, and [u] holds their values. *)
Definition item_of (item : pyval) (u : user_data) : Prop :=
  exists entries,
    item = PyDict entries
    /\ dict_lookup "login" entries = Some (login u)
    /\ dict_lookup "html_url" entries = Some (url u)
    /\ dict_lookup "avatar_url" entries = Some (avatar_url u)
    /\ dict_lookup "type" entries = Some (type u).

(** The item list of a payload: the value under ["items"], an absent one
    standing for the empty list. *)
Definition item_list (entries : list (string * pyval)) (items : list pyval) : Prop :=
  dict_lookup "items" entries = Some (PyList items)
  \/ (dict_lookup "items" entries = None /\ items = []).

(** The file is absent or a workbook. *)
Definition sound_store (f : option file) : Prop :=
  f = None \/ exists table, f = Some (Workbook table).

(** The file is absent, or it is a workbook and reading it does not
    fail. *)
Definition readable (E : env) (w : world) : Prop :=
  store w = None
  \/ ((exists table, store w = Some (Workbook table)) /\ read_fault E = None).

(** The Results cell for the handles of the users. *)
Definition result_summary (handles : list string) : string :=
  match handles with
  | [] => "No results"
  | _ :: _ => join ", " handles
  end.

(** [s] is [n] decimal digits. *)
Definition all_digits (n : nat) (s : string) : bool :=
  Nat.eqb (String.length s) n && forallb is_digit (list_ascii_of_string s).

(** [s] reads [YYYY-MM-DD HH:MM:SS]. *)
Definition timestamp_format (s : string) : Prop :=
  exists Y m d H M S,
    s = Y ++ "-" ++ m ++ "-" ++ d ++ " " ++ H ++ ":" ++ M ++ ":" ++ S
    /\ all_digits 4 Y = true /\ all_digits 2 m = true /\ all_digits 2 d = true
    /\ all_digits 2 H = true /\ all_digits 2 M = true /\ all_digits 2 S = true.

(** What a wall clock can read: a date and a time of the day, in a year of
    four digits. *)
Definition clock_reading (d : datetime) : Prop :=
  1000 <= year d <= 9999 /\ 1 <= month d <= 12 /\ 1 <= day d <= 31
  /\ 0 <= hour d <= 23 /\ 0 <= minute d <= 59 /\ 0 <= second d <= 59.

(** The row [save_to_excel] builds for a call. *)
Definition row_of_call (c : call) (entry : row) : Prop :=
  new_entry (call_env c) (call_search_type c) (call_input c) (call_results c)
  = inr entry.

(** A row of four texts and a number, as [save_to_excel] builds it. *)
Definition text_row (timestamp search_type input summary : string) (count : Z)
  : row :=
  Row (CStr timestamp) (CStr search_type) (CStr input) (CStr summary) (CInt count).

(** The row matches the arguments of the call: the time of the call, its
    kind and input, the summary of the handles and their number. *)
Definition row_matches (c : call) (entry : row) : Prop :=
  exists handles,
    map login (call_results c) = map PyStr handles
    /\ entry = text_row (strftime (datetime_now (call_env c))) (call_search_type c)
                  (call_input c) (result_summary handles)
                  (Z.of_nat (List.length (call_results c))).

(** The table after one more call that returned [True]: the rows there
    were, as pandas reads them back, and the row of the call after them. *)
Definition record_call (table : list row) (c : call) : list row :=
  match new_entry (call_env c) (call_search_type c) (call_input c)
          (call_results c) with
  | inr entry => (read_back (call_env c) table ++ [entry])%list
  | inl _ => table
  end.

(** The table after calls that all returned [True]. *)
Definition rows_after (table : list row) (calls : list call) : list row :=
  fold_left record_call calls table.

(** Every call of [calls], made from the table [table], reads back the
    rows it finds as they were written. *)
Fixpoint read_verbatim (table : list row) (calls : list call) : Prop :=
  match calls with
  | [] => True
  | c :: rest =>
      read_back (call_env c) table = table
      /\ read_verbatim (record_call table c) rest
  end.

(** The digits of [s] from [start] on, [len] of them, as a number. *)
Definition field (s : string) (start len : nat) : option Z :=
  digits_value 0 false (substring start len s).

(** The date and time a timestamp [YYYY-MM-DD HH:MM:SS] stands for. *)
Definition read_timestamp (s : string) : option datetime :=
  match field s 0 4, field s 5 2, field s 8 2,
        field s 11 2, field s 14 2, field s 17 2 with
  | Some yr, Some mo, Some dy, Some hr, Some mi, Some sc =>
      Some (Datetime yr mo dy hr mi sc)
  | _, _, _, _, _, _ => None
  end.





(** ** Concrete environments, answers and calls *)

(** A world with nothing sent, nothing logged and no workbook. *)
Definition nothing : world := World [] [] None.

(** A text of one to eighteen digits. *)
Definition digits_only (s : string) : bool :=
  truthy s && Nat.leb (String.length s) 18
  && forallb is_digit (list_ascii_of_string s).

Definition looks_numeric (c : cell) : bool :=
  match c with
  | CStr s => digits_only s
  | CInt _ => true
  | _ => false
  end.

(** What pandas infers for the columns the examples meet: a column whose
    cells are all numbers or texts of digits is read as numbers (the text
    [007] as the number 7); any other column is read as it was written. *)
Definition reading (column : list cell) (c : cell) : cell :=
  if forallb looks_numeric column then
    match c with
    | CStr s =>
        match digits_value 0 false s with
        | Some n => CInt n
        | None => c
        end
    | _ => c
    end
  else c.

(** What pandas raises on a file that is no workbook. *)
Definition no_workbook : exn :=
  Exn ValueError
    "Excel file format cannot be determined, you must specify an engine manually.".

(** An environment whose network is unreachable; the disk works and it is
    2024-03-07 09:05:00. *)
Definition unreachable : env :=
  Env (fun _ => inl (Exn ConnectionError "Connection refused")) 1700000000
      (Datetime 2024 3 7 9 5 0) None None no_workbook reading.

(** The same environment, seen from [save_to_excel]. *)
Definition working_disk : env := unreachable.

(** An environment whose disk refuses the write. *)
Definition read_only_disk : env :=
  Env (fun _ => inl (Exn ConnectionError "Connection refused")) 1700000000
      (Datetime 2024 3 7 9 5 0) None
      (Some (Exn OSError "[Errno 13] Permission denied: 'github_search_results.xlsx'",
             Untouched))
      no_workbook reading.

(** An environment whose network answers [r] to every request. *)
Definition answering (r : response) : env :=
  Env (fun _ => inr r) 1700000000 (Datetime 2024 3 7 9 5 0) None None
      no_workbook reading.

(** A 403 answer with [X-RateLimit-Remaining: 0] and no reset header. *)
Definition forbidden_without_reset : response :=
  Response 403 [("X-RateLimit-Remaining", "0")] "Forbidden"
    "https://api.github.com/search/users?q=ada+in%3Aname" (inr (PyDict [])).

(** The same with a reset header, 42 seconds ahead of the clock. *)
Definition forbidden_with_reset : response :=
  Response 403 [("X-RateLimit-Remaining", "0"); ("X-RateLimit-Reset", "1700000042")]
    "Forbidden" "https://api.github.com/search/users?q=ada+in%3Aname"
    (inr (PyDict [])).


(** The answer of the end-to-end example of the specification: two items,
    [ada1] and [ada2]. *)
Definition ada_item (handle : string) : pyval :=
  PyDict [("login", PyStr handle);
          ("id", PyInt 1);
          ("html_url", PyStr ("https://github.com/" ++ handle));
          ("avatar_url", PyStr ("https://avatars.githubusercontent.com/" ++ handle));
          ("type", PyStr "User")].

Definition ada_user (handle : string) : user_data :=
  UserData (PyStr handle) (PyStr ("https://github.com/" ++ handle))
    (PyStr ("https://avatars.githubusercontent.com/" ++ handle)) (PyStr "User").

Definition two_adas : response :=
  Response 200 [] "OK"
    "https://api.github.com/search/users?q=Ada+Lovelace+in%3Aname"
    (inr (PyDict [("total_count", PyInt 2);
                  ("items", PyList [ada_item "ada1"; ada_item "ada2"])])).

(** A 200 answer whose only item is an empty object. *)
Definition bare_item : response :=
  Response 200 [] "OK" "https://api.github.com/search/users?q=ada+in%3Aname"
    (inr (PyDict [("items", PyList [PyDict []])])).

(** Two searches recorded one after the other, a minute apart. *)
Definition first_call : call :=
  Call working_disk "name" "Ada Lovelace" [ada_user "ada1"; ada_user "ada2"].

Definition second_call : call :=
  Call (Env (fun _ => inl (Exn ConnectionError "Connection refused")) 1700000060
          (Datetime 2024 3 7 9 6 0) None None no_workbook reading)
       "email" "nobody@example.org" [].

(** ** The routes *)

(** The routes call [search_github] and [save_to_excel] with the kind as
    [request.form.get('search_type')] gives it: a string, or [None] when the
    form has no such field. [str(None)] is what an f-string prints for it. *)
Definition format_kind (search_type : option string) : string :=
  match search_type with
  | Some s => s
  | None => "None"
  end.

(** [search_type.capitalize()] *)
Definition capitalize_kind (search_type : option string) : M string :=
  match search_type with
  | Some s => ret (capitalize s)
  | None =>
      raise (Exn AttributeError "'NoneType' object has no attribute 'capitalize'")
  end.

(** [search_github] for a kind that may be [None]. *)
Definition search_github_any (E : env) (search_type : option string) (query : string)
    (token : option string) : M (list user_data * option string) :=
  if negb (truthy query) then
    logger WARNING ("Empty " ++ format_kind search_type ++ " provided") ;;
    ret ([], Some "No query provided")
  else
    let headers := request_headers token in
    let params := [("q", query ++ " in:" ++ format_kind search_type)] in
    try_except
      (response <- requests_get E "https://api.github.com/search/users"
                     headers params 10 ;;
       limited <- rate_limit E response ;;
       match limited with
       | Some result => ret result
       | None =>
           raise_for_status response ;;
           results <- lift (json response) ;;
           result_count <- (items <- py_get results "items" (PyList []) ;; len items) ;;
           kind_name <- capitalize_kind search_type ;;
           logger INFO (kind_name ++ " search for '" ++ query
                        ++ "' found " ++ str_of_int result_count ++ " results") ;;
           users <- (items <- py_get results "items" (PyList []) ;;
                     its <- iterate items ;;
                     for_each user_of_item its) ;;
           ret (users, None)
       end)
      (fun e =>
         if isinstance_RequestException e then
           let error_msg := "Request error searching by " ++ format_kind search_type
                            ++ ": " ++ exn_str e in
           logger ERROR error_msg ;;
           ret ([], Some error_msg)
         else if isinstance_Exception e then
           let error_msg := "Error searching by " ++ format_kind search_type
                            ++ ": " ++ exn_str e in
           logger ERROR error_msg ;;
           ret ([], Some error_msg)
         else raise e).

(** The Search Type cell of a kind: pandas writes [None] as the empty
    cell, as it writes the empty string. *)
Definition kind_cell (search_type : option string) : string :=
  match search_type with
  | Some s => s
  | None => ""
  end.

(** [save_to_excel] for a kind that may be [None]. *)
Definition save_to_excel_any (E : env) (search_type : option string)
    (input_data : string) (results : list user_data) : M bool :=
  save_to_excel E (kind_cell search_type) input_data results.

(** What a route hands to [render_template] as a keyword argument. *)
Inductive value : Type :=
| VNone
| VStr (s : string)
| VInt (n : Z)
| VUsers (users : list user_data)
| VRows (rows : list row).

Definition value_of_kind (search_type : option string) : value :=
  match search_type with
  | Some s => VStr s
  | None => VNone
  end.

(** What a route returns: [redirect(location)],
    [render_template(template, **context)] or
    [send_file(path, as_attachment=...)]. *)
Inductive view : Type :=
| Redirect (location : string)
| Render (template : string) (context : list (string * value))
| SendFile (path : string) (as_attachment : bool).

(** The state a route works on: the messages flashed so far, as
    (category, message), oldest first, and the world. *)
Record site : Type := Site {
  flashes : list (string * string);
  site_world : world
}.

Definition W (A : Type) : Type := site -> outcome A * site.

Definition retW {A} (a : A) : W A := fun s => (Return a, s).

Definition raiseW {A} (e : exn) : W A := fun s => (Raise e, s).

Definition bindW {A B} (m : W A) (k : A -> W B) : W B :=
  fun s =>
    match m s with
    | (Return a, s') => k a s'
    | (Raise e, s') => (Raise e, s')
    end.

Definition try_exceptW {A} (body : W A) (handler : exn -> W A) : W A :=
  fun s =>
    match body s with
    | (Return a, s') => (Return a, s')
    | (Raise e, s') => handler e s'
    end.

(** A computation on the world, run inside a route. *)
Definition liftW {A} (m : M A) : W A :=
  fun s =>
    match m (site_world s) with
    | (o, w') => (o, Site (flashes s) w')
    end.

(** [flash(message, category)] *)
Definition flash (message category : string) : W unit :=
  fun s => (Return tt, Site (flashes s ++ [(category, message)]) (site_world s)).

Declare Scope web_scope.
Delimit Scope web_scope with web.
Notation "x <- m ;; k" := (bindW m (fun x => k))
  (at level 61, m at next level, right associativity) : web_scope.
Notation "m ;; k" := (bindW m (fun _ => k))
  (at level 61, right associativity) : web_scope.

Definition RESULTS_FILE : string := "github_search_results.xlsx".

(** [url_for(endpoint)] for the four routes of the application. *)
Definition url_for (endpoint : string) : string :=
  if String.eqb endpoint "index" then "/" else "/" ++ endpoint.

(** [request.form.get(key)]: the first value of the field. *)
Fixpoint form_get (key : string) (form : list (string * string)) : option string :=
  match form with
  | [] => None
  | (k, v) :: rest => if String.eqb k key then Some v else form_get key rest
  end.

(** [request.form.get(key, '')] *)
Definition form_get_or_empty (key : string) (form : list (string * string)) : string :=
  match form_get key form with
  | Some v => v
  | None => ""
  end.

(** [s or None] *)
Definition or_None (s : string) : option string :=
  if truthy s then Some s else None.

(** [index] *)
Definition index : W view := retW (Render "index.html" []).

(** [search]: the route of the form. *)
Definition search (E : env) (form : list (string * string)) : W view :=
  (let search_type := form_get "search_type" form in
   let query := strip (form_get_or_empty "query" form) in
   let token := or_None (strip (form_get_or_empty "token" form)) in
   if negb (truthy query) then
     flash "Please enter a search query" "warning" ;;
     retW (Redirect (url_for "index"))
   else
     found <- liftW (search_github_any E search_type query token) ;;
     let users := fst found in
     let error := snd found in
     if truthy_opt error then
       flash (match error with Some msg => msg | None => "" end) "danger" ;;
       retW (Render "index.html"
               [("search_type", value_of_kind search_type); ("query", VStr query)])
     else
       liftW (save_to_excel_any E search_type query users) ;;
       retW (Render "results.html"
               [("users", VUsers users);
                ("search_type", value_of_kind search_type);
                ("query", VStr query);
                ("count", VInt (Z.of_nat (List.length users)))]))%web.

(** [download] *)
Definition download : W view :=
  (file_exists <- liftW os_path_exists ;;
   if file_exists then retW (SendFile RESULTS_FILE true)
   else
     flash "No search results file exists yet" "warning" ;;
     retW (Redirect (url_for "index")))%web.

(** [history]: [Some view] where the code returns from inside the [try],
    [None] where it goes on to the redirect at the end. *)
Definition history (E : env) : W view :=
  (file_exists <- liftW os_path_exists ;;
   returned <-
     (if file_exists then
        try_exceptW
          (df <- liftW (read_excel E) ;;
           let searches := df in
           retW (Some (Render "history.html" [("searches", VRows searches)])))
          (fun e =>
             if isinstance_Exception e then
               liftW (logger ERROR ("Error reading history: " ++ exn_str e)) ;;
               flash "Error reading search history" "danger" ;;
               retW None
             else raiseW e)
      else
        flash "No search history available" "info" ;;
        retW None) ;;
   match returned with
   | Some v => retW v
   | None => retW (Redirect (url_for "index"))
   end)%web.

(** ** Views and predicates for the routes *)

(** What the [try] block of [search_github_any] does once [requests.get]
    has answered. *)
Definition after_response_any (E : env) (search_type : option string)
    (query : string) (response : response) : M (list user_data * option string) :=
  limited <- rate_limit E response ;;
  match limited with
  | Some result => ret result
  | None =>
      raise_for_status response ;;
      results <- lift (json response) ;;
      result_count <- (items <- py_get results "items" (PyList []) ;; len items) ;;
      kind_name <- capitalize_kind search_type ;;
      logger INFO (kind_name ++ " search for '" ++ query
                   ++ "' found " ++ str_of_int result_count ++ " results") ;;
      users <- (items <- py_get results "items" (PyList []) ;;
                its <- iterate items ;;
                for_each user_of_item its) ;;
      ret (users, None)
  end.

(** The line logged on success. *)
Definition found_line (kind_name query : string) (count : nat) : string :=
  kind_name ++ " search for '" ++ query ++ "' found "
  ++ str_of_int (Z.of_nat count) ++ " results".

(** Running [m] leaves the world as it is, whether it returns or raises. *)
Definition keeps_world {A} (m : M A) : Prop :=
  forall w, snd (m w) = w.

(** The query, the token and the request of the [search] route for a
    form. *)
Definition form_query (form : list (string * string)) : string :=
  strip (form_get_or_empty "query" form).

Definition form_token (form : list (string * string)) : option string :=
  or_None (strip (form_get_or_empty "token" form)).

Definition form_request (form : list (string * string)) : request :=
  search_request (format_kind (form_get "search_type" form)) (form_query form)
    (form_token form).

(** A write that fails leaves the file as it was. *)
Definition gentle (E : env) : Prop :=
  forall e f, write_fault E <> Some (e, Left_as f).

(** The calls that returned [True], in call order. *)
Definition kept (calls : list call) (bs : list bool) : list call :=
  map fst (filter snd (combine calls bs)).

(** The ways a call of [search_github_any] can end: the users and the error
    it returns, and the world it leaves. *)
Inductive search_outcome (E : env) (search_type : option string) (query : string)
    (token : option string) (w : world)
  : list user_data -> option string -> world -> Prop :=
| Empty_query :
    query = "" ->
    search_outcome E search_type query token w
      [] (Some "No query provided")
      (logged WARNING ("Empty " ++ format_kind search_type ++ " provided") w)
| Rate_limited (r : response) (wait_time : Z) :
    truthy query = true ->
    network E (search_request (format_kind search_type) query token) = inr r ->
    rate_limited r ->
    0 <= wait_time ->
    search_outcome E search_type query token w
      [] (Some (rate_limit_message wait_time))
      (logged WARNING
         ("Rate limit exceeded. Waiting for " ++ str_of_int wait_time ++ " seconds")
         (requested (search_request (format_kind search_type) query token) w))
| Found (r : response) (results : pyval) (kind_name : string)
    (users : list user_data) :
    truthy query = true ->
    network E (search_request (format_kind search_type) query token) = inr r ->
    ~ 400 <= status_code r < 600 ->
    json r = inr results ->
    search_type = Some kind_name ->
    search_outcome E search_type query token w
      users None
      (logged INFO (found_line (capitalize kind_name) query (List.length users))
         (requested (search_request (format_kind search_type) query token) w))
| Failed (e : exn) :
    truthy query = true ->
    search_outcome E search_type query token w
      [] (Some (context (format_kind search_type) e ++ ": " ++ exn_str e))
      (logged ERROR (context (format_kind search_type) e ++ ": " ++ exn_str e)
         (requested (search_request (format_kind search_type) query token) w))
| Failed_after_count (e : exn) (line : string) :
    truthy query = true ->
    search_outcome E search_type query token w
      [] (Some (context (format_kind search_type) e ++ ": " ++ exn_str e))
      (logged ERROR (context (format_kind search_type) e ++ ": " ++ exn_str e)
         (logged INFO line
            (requested (search_request (format_kind search_type) query token) w))).

(** A call whose write is refused. *)
Definition refused_call : call :=
  Call read_only_disk "name" "Grace Hopper" [ada_user "grace"].

(** [v] is made of blanks only (it may be empty). *)
Definition blank (v : string) : bool :=
  forallb is_space (list_ascii_of_string v).

(** The context of the results page. *)
Definition results_context (search_type : option string) (query : string)
    (users : list user_data) : list (string * value) :=
  [("users", VUsers users);
   ("search_type", value_of_kind search_type);
   ("query", VStr query);
   ("count", VInt (Z.of_nat (List.length users)))].

(** The context of the index page after a failed search. *)
Definition index_context (search_type : option string) (query : string)
  : list (string * value) :=
  [("search_type", value_of_kind search_type); ("query", VStr query)].

(** A form of the end-to-end example, with blanks around the query, and a
    form whose query is blanks only. *)
Definition ada_form : list (string * string) :=
  [("search_type", "name"); ("query", "  Ada Lovelace "); ("token", " ")].

Definition blank_form : list (string * string) :=
  [("search_type", "name"); ("query", "   ")].

(** A form without a kind. *)
Definition kindless_form : list (string * string) :=
  [("query", "Ada Lovelace")].

(** A site with nothing flashed, on the world [w]. *)
Definition fresh (w : world) : site := Site [] w.

(** A 200 answer whose only item has [null] for login. *)
Definition null_login : response :=
  Response 200 [] "OK" "https://api.github.com/search/users?q=ada+in%3Aname"
    (inr (PyDict [("items",
                   PyList [PyDict [("login", PyNone); ("html_url", PyNone);
                                   ("avatar_url", PyNone); ("type", PyNone)]])])).

(** A search for the text [007] that finds nobody, and a later search. *)
Definition leading_zero_call : call := Call working_disk "name" "007" [].

Definition later_call : call :=
  Call (Env (fun _ => inl (Exn ConnectionError "Connection refused")) 1700000060
          (Datetime 2024 3 7 9 6 0) None None no_workbook reading)
       "name" "ada" [].


(** ** Small facts about the monad and the helpers *)

Lemma bind_Return {A B} (m : M A) (k : A -> M B) w a w1 :
  m w = (Return a, w1) -> bind m k w = k a w1.
Proof. intro H. unfold bind. now rewrite H. Qed.

Lemma bind_Raise {A B} (m : M A) (k : A -> M B) w e w1 :
  m w = (Raise e, w1) -> bind m k w = (Raise e, w1).
Proof. intro H. unfold bind. now rewrite H. Qed.

Lemma headers_getitem_present hs name v w :
  headers_get name hs = Some v -> headers_getitem hs name w = (Return v, w).
Proof. intro H. unfold headers_getitem. now rewrite H. Qed.

Lemma headers_getitem_absent hs name w :
  headers_get name hs = None ->
  headers_getitem hs name w = (Raise (Exn KeyError (py_repr (lower name))), w).
Proof. intro H. unfold headers_getitem. now rewrite H. Qed.

Lemma int_accepts s n w : py_int s = Some n -> int s w = (Return n, w).
Proof.
  unfold py_int, int. destruct (int_result s); [discriminate | ].
  now intros [= ->].
Qed.

Lemma int_rejects s w :
  py_int s = None ->
  exists msg, int s w = (Raise (Exn ValueError msg), w).
Proof.
  unfold py_int, int, int_result.
  destruct (literal_value s); [destruct (4300 <? count_digits s) | ];
    try discriminate; intros _; eexists; reflexivity.
Qed.

Lemma grows_ret {A} (a : A) : sent_grows_by [] (ret a).
Proof. intro w. simpl. now rewrite app_nil_r. Qed.

Lemma grows_raise {A} (e : exn) : sent_grows_by [] (@raise A e).
Proof. intro w. simpl. now rewrite app_nil_r. Qed.

Lemma grows_lift {A} (r : exn + A) : sent_grows_by [] (lift r).
Proof. destruct r; [apply grows_raise | apply grows_ret]. Qed.

Lemma grows_logger lv msg : sent_grows_by [] (logger lv msg).
Proof. intro w. simpl. now rewrite app_nil_r. Qed.

Lemma grows_bind {A B} l (m : M A) (k : A -> M B) :
  sent_grows_by l m -> (forall a, sent_grows_by [] (k a)) ->
  sent_grows_by l (bind m k).
Proof.
  intros Hm Hk w. unfold bind. specialize (Hm w).
  destruct (m w) as [[a | e] w1]; simpl in *; [ | exact Hm].
  rewrite (Hk a w1), Hm. now rewrite app_nil_r.
Qed.

Lemma grows_try_except {A} l (body : M A) (handler : exn -> M A) :
  sent_grows_by l body -> (forall e, sent_grows_by [] (handler e)) ->
  sent_grows_by l (try_except body handler).
Proof.
  intros Hm Hk w. unfold try_except. specialize (Hm w).
  destruct (body w) as [[a | e] w1]; simpl in *; [exact Hm | ].
  rewrite (Hk e w1), Hm. now rewrite app_nil_r.
Qed.

Lemma grows_for_each {A B} (f : A -> M B) (xs : list A) :
  (forall x, sent_grows_by [] (f x)) -> sent_grows_by [] (for_each f xs).
Proof.
  intro Hf. induction xs as [ | x rest IH]; simpl.
  - apply grows_ret.
  - apply grows_bind; [apply Hf | intro y].
    apply grows_bind; [exact IH | intro ys; apply grows_ret].
Qed.

Lemma grows_if {A} (b : bool) l (m1 m2 : M A) :
  sent_grows_by l m1 -> sent_grows_by l m2 -> sent_grows_by l (if b then m1 else m2).
Proof. now destruct b. Qed.

Lemma grows_requests_get E u hs ps t :
  sent_grows_by [Request "GET" u hs ps t] (requests_get E u hs ps t).
Proof. intro w. reflexivity. Qed.

Lemma grows_headers_getitem hs name : sent_grows_by [] (headers_getitem hs name).
Proof.
  unfold headers_getitem. destruct (headers_get name hs);
    [apply grows_ret | apply grows_raise].
Qed.

Lemma grows_int s : sent_grows_by [] (int s).
Proof. apply grows_lift. Qed.

Lemma grows_py_get v key d : sent_grows_by [] (py_get v key d).
Proof.
  destruct v; simpl; try apply grows_raise.
  destruct (dict_lookup key entries); apply grows_ret.
Qed.

Lemma grows_len v : sent_grows_by [] (len v).
Proof. destruct v; simpl; try apply grows_raise; apply grows_ret. Qed.

Lemma grows_iterate v : sent_grows_by [] (iterate v).
Proof. destruct v; simpl; try apply grows_raise; apply grows_ret. Qed.

Lemma grows_getitem v key : sent_grows_by [] (getitem v key).
Proof.
  destruct v; simpl; try apply grows_raise.
  destruct (dict_lookup key entries); [apply grows_ret | apply grows_raise].
Qed.

Lemma grows_raise_for_status r : sent_grows_by [] (raise_for_status r).
Proof.
  unfold raise_for_status.
  repeat (apply grows_if; try apply grows_raise). apply grows_ret.
Qed.

Create HintDb quiet.
#[local] Hint Resolve grows_ret grows_raise grows_lift grows_logger grows_for_each
  grows_headers_getitem grows_int grows_py_get grows_len grows_iterate
  grows_getitem grows_raise_for_status : quiet.

Ltac quiet :=
  repeat first
    [ progress auto with quiet
    | apply grows_bind; [ | intro ]
    | apply grows_if
    | match goal with
      | |- sent_grows_by _ (match ?x with _ => _ end) => destruct x
      end ].

Lemma grows_user_of_item v : sent_grows_by [] (user_of_item v).
Proof. unfold user_of_item. quiet. Qed.

Lemma grows_rate_limit E r : sent_grows_by [] (rate_limit E r).
Proof. unfold rate_limit. quiet. Qed.

(** A non-empty query sends exactly one request, [search_request], on
    every path. *)
Lemma search_github_sends E search_type query token :
  truthy query = true ->
  sent_grows_by [search_request search_type query token]
    (search_github E search_type query token).
Proof.
  intro Hq. unfold search_github. rewrite Hq. simpl negb. cbv iota.
  apply grows_try_except.
  - apply grows_bind; [apply grows_requests_get | intro r].
    apply grows_bind; [apply grows_rate_limit | intro limited].
    destruct limited as [result | ]; [apply grows_ret | ].
    pose proof grows_user_of_item. quiet.
  - intro e. quiet.
Qed.

(** ** Properties of [search_github] *)

(** C1, as the claim has it: the error text of an empty query is not
    ["no query provided"]; the code's text starts with a capital. *)
Lemma empty_query_error_is_capitalised :
  fst (search_github unreachable "name" "" None nothing) =
    Return ([], Some "No query provided")
  /\ fst (search_github unreachable "name" "" None nothing) <>
       Return ([], Some "no query provided").
Proof. split; [reflexivity | vm_compute; discriminate]. Qed.

(** C1, amended: for every query whose text is empty, [search_github] sends
    no request and returns at once with no users and the error
    ["No query provided"]; it only writes one warning to the log. *)
Theorem search_github_empty_query E search_type token w :
  search_github E search_type "" token w =
    (Return ([], Some "No query provided"),
     World (sent w)
           (log w ++ [(WARNING, "Empty " ++ search_type ++ " provided")])
           (store w))
  /\ sent (snd (search_github E search_type "" token w)) = sent w.
Proof. split; reflexivity. Qed.

Lemma request_headers_Authorization token :
  headers_get "Authorization" (request_headers token) =
    match token with
    | Some t => if truthy t then Some ("token " ++ t) else None
    | None => None
    end.
Proof. destruct token as [[ | c t] | ]; reflexivity. Qed.

(** C8: for every query with non-empty text, [search_github] sends exactly
    one request: a GET, whose [q] parameter is the raw text followed by the
    qualifier [in:<kind>] ([in:email], [in:name]), whose Accept header asks
    for [application/vnd.github.v3+json], whose Authorization header is
    there only when a token is given and is then [token <token>], and whose
    timeout is 10. *)
Theorem search_github_request E search_type query token w :
  truthy query = true ->
  let rq := search_request search_type query token in
  sent (snd (search_github E search_type query token w)) = (sent w ++ [rq])%list
  /\ req_method rq = "GET"
  /\ req_url rq = "https://api.github.com/search/users"
  /\ req_params rq = [("q", query ++ " in:" ++ search_type)]
  /\ (forall k, search_type = kind_str k ->
        req_params rq =
          [("q", query ++ match k with Email => " in:email" | Name => " in:name" end)])
  /\ headers_get "Accept" (req_headers rq) = Some "application/vnd.github.v3+json"
  /\ (token = None -> headers_get "Authorization" (req_headers rq) = None)
  /\ (forall t, token = Some t -> t <> "" ->
        headers_get "Authorization" (req_headers rq) = Some ("token " ++ t))
  /\ (forall v, headers_get "Authorization" (req_headers rq) = Some v ->
        exists t, token = Some t /\ v = "token " ++ t)
  /\ req_timeout rq = 10.
Proof.
  intros Hq rq.
  split; [apply (search_github_sends E _ _ _ Hq) | ].
  repeat split.
  - intros k ->. now destruct k.
  - destruct token as [[ | c t] | ]; reflexivity.
  - intros ->. reflexivity.
  - intros t -> Ht. destruct t as [ | c t]; [congruence | reflexivity].
  - intros v Hv. unfold rq in Hv. simpl req_headers in Hv.
    rewrite request_headers_Authorization in Hv.
    destruct token as [t | ]; [ | discriminate].
    destruct (truthy t); [ | discriminate].
    exists t. split; congruence.
Qed.

(** The request of a search by email with a token. *)
Lemma search_github_request_witness :
  sent (snd (search_github unreachable "email" "ada@example.org" (Some "s3cret") nothing))
  = [Request "GET" "https://api.github.com/search/users"
       [("Accept", "application/vnd.github.v3+json");
        ("Authorization", "token s3cret")]
       [("q", "ada@example.org in:email")] 10].
Proof.
  exact (proj1 (search_github_request unreachable "email" "ada@example.org"
                  (Some "s3cret") nothing eq_refl)).
Defined.

(** C9: a token that is the empty string is treated as no token: the
    request carries no Authorization header at all, and the whole call
    behaves as it does with [token = None]. *)
Theorem search_github_empty_token E search_type query w :
  search_github E search_type query (Some "") w
    = search_github E search_type query None w
  /\ search_request search_type query (Some "")
    = search_request search_type query None
  /\ req_headers (search_request search_type query (Some ""))
    = [("Accept", "application/vnd.github.v3+json")]
  /\ headers_get "Authorization"
       (req_headers (search_request search_type query (Some ""))) = None.
Proof. repeat split. Qed.

(** *** Stepping through the [try] block *)

Lemma isinstance_Exception_all e : isinstance_Exception e = true.
Proof. destruct e as [[] msg]; reflexivity. Qed.

Lemma on_error_returns search_type e w :
  on_error search_type e w =
    (Return ([], Some (context search_type e ++ ": " ++ exn_str e)),
     logged ERROR (context search_type e ++ ": " ++ exn_str e) w).
Proof.
  unfold on_error, context. rewrite isinstance_Exception_all.
  destruct (isinstance_RequestException e); cbn [bind logger ret];
    reflexivity.
Qed.

Lemma search_github_nonempty E search_type query token :
  truthy query = true ->
  search_github E search_type query token =
    try_except
      (response <- requests_get E "https://api.github.com/search/users"
                     (request_headers token)
                     [("q", query ++ " in:" ++ search_type)] 10 ;;
       after_response E search_type query response)
      (on_error search_type).
Proof. intro Hq. unfold search_github. rewrite Hq. reflexivity. Qed.


(** A response: the rest of the [try] block runs under the two [except]
    clauses. *)
Lemma search_github_response E search_type query token w r :
  truthy query = true ->
  network E (search_request search_type query token) = inr r ->
  search_github E search_type query token w =
    match after_response E search_type query r
            (requested (search_request search_type query token) w) with
    | (Return a, w') => (Return a, w')
    | (Raise e, w') =>
        (Return ([], Some (context search_type e ++ ": " ++ exn_str e)),
         logged ERROR (context search_type e ++ ": " ++ exn_str e) w')
    end.
Proof.
  intros Hq Hnet. rewrite (search_github_nonempty _ _ _ _ Hq).
  unfold try_except, bind at 1, requests_get.
  fold (search_request search_type query token). rewrite Hnet.
  fold (requested (search_request search_type query token) w).
  destruct (after_response _ _ _ _ _) as [[a | e] w']; [reflexivity | ].
  apply on_error_returns.
Qed.

(** *** The rate-limit branch *)

Lemma rate_limit_enters E r w :
  quota_exhausted r ->
  rate_limit E r w =
    (reset_time <- (v <- headers_getitem (headers r) "X-RateLimit-Reset" ;; int v) ;;
     let wait_time := Z.max 0 (reset_time - time_time E) in
     logger WARNING ("Rate limit exceeded. Waiting for " ++ str_of_int wait_time
                     ++ " seconds") ;;
     ret (Some ([], Some (rate_limit_message wait_time)))) w.
Proof.
  intros [Hs (v & Hv & Hz)]. unfold rate_limit, headers_contains.
  rewrite Hs, Hv. change ((403 =? 403) && true) with true. cbv iota.
  rewrite (bind_Return _ _ w 0 w); [reflexivity | ].
  rewrite (bind_Return _ _ w v w); [ | now apply headers_getitem_present].
  now apply int_accepts.
Qed.

(** With a reset header that reads as a number, the branch returns. *)
Lemma rate_limit_hit E r w reset v :
  quota_exhausted r ->
  headers_get "X-RateLimit-Reset" (headers r) = Some v ->
  py_int v = Some reset ->
  rate_limit E r w =
    (Return (Some ([], Some (rate_limit_message (Z.max 0 (reset - time_time E))))),
     logged WARNING
       ("Rate limit exceeded. Waiting for "
        ++ str_of_int (Z.max 0 (reset - time_time E)) ++ " seconds") w).
Proof.
  intros Hq Hv Hz. rewrite (rate_limit_enters _ _ _ Hq).
  rewrite (bind_Return _ _ w reset w); [reflexivity | ].
  rewrite (bind_Return _ _ w v w); [ | now apply headers_getitem_present].
  now apply int_accepts.
Qed.

(** Without a reset header, the lookup raises KeyError. *)
Lemma rate_limit_reset_absent E r w :
  quota_exhausted r ->
  headers_get "X-RateLimit-Reset" (headers r) = None ->
  rate_limit E r w = (Raise (Exn KeyError "'x-ratelimit-reset'"), w).
Proof.
  intros Hq Hv. rewrite (rate_limit_enters _ _ _ Hq).
  apply bind_Raise. apply bind_Raise. now apply headers_getitem_absent.
Qed.

(** With a reset header that is no number, [int] raises ValueError. *)
Lemma rate_limit_reset_not_numeric E r w v :
  quota_exhausted r ->
  headers_get "X-RateLimit-Reset" (headers r) = Some v ->
  py_int v = None ->
  exists msg, rate_limit E r w = (Raise (Exn ValueError msg), w).
Proof.
  intros Hq Hv Hz. rewrite (rate_limit_enters _ _ _ Hq).
  destruct (int_rejects v w Hz) as [msg Hmsg]. exists msg.
  apply bind_Raise.
  rewrite (bind_Return _ _ w v w); [exact Hmsg | now apply headers_getitem_present].
Qed.

(** C2, as the claim has it: a 403 whose remaining-quota header is ["0"]
    but which carries no reset header gets the message of the generic
    handler, which has no digit in it, hence no wait time. *)
Lemma rate_limit_without_reset_has_no_wait_time :
  status_code forbidden_without_reset = 403
  /\ headers_get "X-RateLimit-Remaining" (headers forbidden_without_reset) = Some "0"
  /\ fst (search_github (answering forbidden_without_reset) "name" "ada" None nothing)
     = Return ([], Some "Error searching by name: 'x-ratelimit-reset'")
  /\ has_digit "Error searching by name: 'x-ratelimit-reset'" = false
  /\ forall wait_time,
       fst (search_github (answering forbidden_without_reset) "name" "ada" None nothing)
       <> Return ([], Some (rate_limit_message wait_time)).
Proof.
  repeat split.
  intros wait_time H. vm_compute in H. discriminate H.
Qed.

(** Outside the rate-limit case the branch returns nothing, or raises; it
    then leaves the world as it was. *)
Lemma rate_limit_inversion E r w o w' :
  rate_limit E r w = (o, w') ->
  match o with
  | Return (Some _) => rate_limited r
  | Return None | Raise _ => w' = w
  end.
Proof.
  intro H.
  destruct (status_code r =? 403) eqn:Hs.
  2:{ unfold rate_limit in H. rewrite Hs in H. injection H as <- <-. reflexivity. }
  destruct (headers_get "X-RateLimit-Remaining" (headers r)) as [v | ] eqn:Hv.
  2:{ unfold rate_limit, headers_contains in H. rewrite Hs, Hv in H.
      injection H as <- <-. reflexivity. }
  assert (Hstep : forall k : Z -> M (option (list user_data * option string)),
             rate_limit E r w =
             bind (v <- headers_getitem (headers r) "X-RateLimit-Remaining" ;; int v)
                  k w ->
             bind (int v) k w = (o, w')).
  { intros k Hk. rewrite <- H, Hk. unfold bind at 2 3.
    now rewrite (headers_getitem_present _ _ _ w Hv). }
  unfold rate_limit, headers_contains in Hstep. rewrite Hs, Hv in Hstep.
  specialize (Hstep _ eq_refl). clear H. rename Hstep into H.
  apply Z.eqb_eq in Hs.
  destruct (py_int v) as [n | ] eqn:Hn.
  2:{ destruct (int_rejects v w Hn) as [msg Hmsg].
      rewrite (bind_Raise _ _ w _ w Hmsg) in H. injection H as <- <-. reflexivity. }
  rewrite (bind_Return _ _ w n w (int_accepts _ _ _ Hn)) in H.
  destruct (n =? 0) eqn:Hz.
  2:{ injection H as <- <-. reflexivity. }
  apply Z.eqb_eq in Hz. subst n.
  assert (Hx : quota_exhausted r) by (split; [exact Hs | now exists v]).
  assert (H' : rate_limit E r w = (o, w'))
    by (rewrite (rate_limit_enters E r w Hx); exact H).
  clear H. rename H' into H.
  destruct (headers_get "X-RateLimit-Reset" (headers r)) as [v' | ] eqn:Hv'.
  2:{ rewrite (rate_limit_reset_absent _ _ _ Hx Hv') in H.
      injection H as <- <-. reflexivity. }
  destruct (py_int v') as [reset | ] eqn:Hr.
  - rewrite (rate_limit_hit _ _ _ _ _ Hx Hv' Hr) in H. injection H as <- <-.
    split; [exact Hx | now exists v', reset].
  - destruct (rate_limit_reset_not_numeric E _ w _ Hx Hv' Hr) as [msg Hmsg].
    rewrite Hmsg in H. injection H as <- <-. reflexivity.
Qed.

(** On a 4xx or 5xx status [raise_for_status] raises HTTPError. *)
Lemma raise_for_status_raises r w :
  400 <= status_code r < 600 ->
  exists e, raise_for_status r w = (Raise e, w) /\ exn_cls e = HTTPError.
Proof.
  intros [Hlo Hhi]. unfold raise_for_status.
  apply Z.leb_le in Hlo. rewrite Hlo. simpl andb.
  destruct (status_code r <? 500) eqn:H5.
  - eexists. split; reflexivity.
  - apply Z.ltb_ge in H5. apply Z.leb_le in H5. rewrite H5.
    apply Z.ltb_lt in Hhi. rewrite Hhi. simpl andb. cbv iota.
    eexists. split; reflexivity.
Qed.

(** C2, amended: for every response with status 403 whose remaining-quota
    header reads as 0 (["0"] does) and whose reset header is present and
    reads as a number [reset], [search_github] returns no users and the
    rate-limit message with the wait time [max 0 (reset - now)]; it does
    not raise, and although [raise_for_status] would raise HTTPError for
    this status, the rate-limit answer is the one returned. *)
Theorem search_github_rate_limited E search_type query token w r v reset :
  truthy query = true ->
  network E (search_request search_type query token) = inr r ->
  quota_exhausted r ->
  headers_get "X-RateLimit-Reset" (headers r) = Some v ->
  py_int v = Some reset ->
  let wait_time := Z.max 0 (reset - time_time E) in
  search_github E search_type query token w =
    (Return ([], Some (rate_limit_message wait_time)),
     logged WARNING
       ("Rate limit exceeded. Waiting for " ++ str_of_int wait_time ++ " seconds")
       (requested (search_request search_type query token) w))
  /\ 0 <= wait_time
  /\ (forall w0, exists e,
        raise_for_status r w0 = (Raise e, w0) /\ exn_cls e = HTTPError).
Proof.
  intros Hq Hnet Hx Hv Hr wait_time. repeat split.
  - rewrite (search_github_response _ _ _ _ _ _ Hq Hnet).
    unfold after_response, bind at 1.
    rewrite (rate_limit_hit _ _ _ _ _ Hx Hv Hr). reflexivity.
  - apply Z.le_max_l.
  - intro w0. apply raise_for_status_raises. destruct Hx as [-> _]. lia.
Qed.

(** A reset 42 seconds ahead of the clock: wait 42 seconds. *)
Lemma search_github_rate_limited_witness :
  fst (search_github (answering forbidden_with_reset) "name" "ada" None nothing)
  = Return ([], Some "GitHub API rate limit exceeded. Try again in 42 seconds or use a token.").
Proof.
  refine (f_equal fst
            (proj1 (search_github_rate_limited (answering forbidden_with_reset)
                      "name" "ada" None nothing forbidden_with_reset
                      "1700000042" 1700000042 eq_refl eq_refl _ eq_refl eq_refl))).
  split; [reflexivity | exists "0"; split; reflexivity].
Defined.

(** C10: for every response with status 403 whose remaining-quota header
    reads as 0 and whose reset header is absent or is no number,
    [search_github] still returns no users and an error message, that of the
    generic [except Exception] clause, and does not raise. *)
Theorem search_github_rate_limit_reset_unusable E search_type query token w r :
  truthy query = true ->
  network E (search_request search_type query token) = inr r ->
  quota_exhausted r ->
  (headers_get "X-RateLimit-Reset" (headers r) = None
   \/ exists v, headers_get "X-RateLimit-Reset" (headers r) = Some v
                /\ py_int v = None) ->
  exists msg,
    search_github E search_type query token w =
      (Return ([], Some ("Error searching by " ++ search_type ++ ": " ++ msg)),
       logged ERROR ("Error searching by " ++ search_type ++ ": " ++ msg)
         (requested (search_request search_type query token) w)).
Proof.
  intros Hq Hnet Hx Hreset.
  rewrite (search_github_response _ _ _ _ _ _ Hq Hnet).
  unfold after_response, bind at 1.
  destruct Hreset as [Hnone | (v & Hv & Hbad)].
  - rewrite (rate_limit_reset_absent _ _ _ Hx Hnone).
    exists "'x-ratelimit-reset'". reflexivity.
  - destruct (rate_limit_reset_not_numeric E _ (requested (search_request search_type query token) w) _ Hx Hv Hbad)
      as [msg ->].
    exists msg. reflexivity.
Qed.

(** The 403 without a reset header. *)
Lemma search_github_rate_limit_reset_unusable_witness :
  exists msg,
    search_github (answering forbidden_without_reset) "name" "ada" None nothing =
      (Return ([], Some ("Error searching by name: " ++ msg)),
       logged ERROR ("Error searching by name: " ++ msg)
         (requested (search_request "name" "ada" None) nothing)).
Proof.
  apply (search_github_rate_limit_reset_unusable (answering forbidden_without_reset)
           "name" "ada" None nothing forbidden_without_reset eq_refl eq_refl).
  - split; [reflexivity | exists "0"; split; reflexivity].
  - left. reflexivity.
Defined.









(** *** The success path *)

Lemma rate_limit_other_status E r w :
  status_code r <> 403 -> rate_limit E r w = (Return None, w).
Proof.
  intro Hs. unfold rate_limit. apply Z.eqb_neq in Hs. rewrite Hs. reflexivity.
Qed.

Lemma raise_for_status_passes r w :
  status_code r < 400 -> raise_for_status r w = (Return tt, w).
Proof.
  intro Hs. unfold raise_for_status.
  replace (400 <=? status_code r) with false by (symmetry; apply Z.leb_gt; lia).
  replace (500 <=? status_code r) with false by (symmetry; apply Z.leb_gt; lia).
  reflexivity.
Qed.

Lemma user_of_item_copies item u w :
  item_of item u -> user_of_item item w = (Return u, w).
Proof.
  intros (entries & -> & H1 & H2 & H3 & H4).
  unfold user_of_item, bind, getitem. rewrite H1, H2, H3, H4.
  now destruct u.
Qed.

Lemma for_each_user_of_item items users w :
  Forall2 item_of items users ->
  for_each user_of_item items w = (Return users, w).
Proof.
  induction 1 as [ | item u items users Hu _ IH]; [reflexivity | ].
  simpl. unfold bind at 1. rewrite (user_of_item_copies _ _ _ Hu).
  unfold bind at 1. rewrite IH. reflexivity.
Qed.

(** C4: for every successful (2xx) response whose payload is an object with
    an item list of N items (an absent list counts as empty), each item
    carrying the four upstream fields, [search_github] returns exactly N
    user records, in the order of the payload, each holding the values of
    [login], [html_url], [avatar_url] and [type] as they came, and the error
    [None]. *)
Theorem search_github_success E search_type query token w r entries items users :
  truthy query = true ->
  network E (search_request search_type query token) = inr r ->
  200 <= status_code r < 300 ->
  json r = inr (PyDict entries) ->
  item_list entries items ->
  Forall2 item_of items users ->
  search_github E search_type query token w =
    (Return (users, None),
     logged INFO
       (capitalize search_type ++ " search for '" ++ query ++ "' found "
        ++ str_of_int (Z.of_nat (List.length items)) ++ " results")
       (requested (search_request search_type query token) w))
  /\ List.length users = List.length items.
Proof.
  intros Hq Hnet Hs Hjson Hitems Hcopy.
  split; [ | symmetry; exact (Forall2_length Hcopy)].
  rewrite (search_github_response _ _ _ _ _ _ Hq Hnet).
  unfold after_response, bind at 1.
  rewrite rate_limit_other_status by lia.
  unfold bind at 1. rewrite raise_for_status_passes by lia.
  unfold bind at 1. rewrite Hjson. unfold lift, ret at 1.
  assert (Hget : forall w0,
             py_get (PyDict entries) "items" (PyList []) w0
             = (Return (PyList items), w0)).
  { intro w0. unfold py_get.
    destruct Hitems as [-> | [-> ->]]; reflexivity. }
  unfold bind at 1. unfold bind at 1. rewrite Hget.
  unfold len, ret at 1.
  unfold bind at 1. unfold logger at 1.
  unfold bind at 1. unfold bind at 1. rewrite Hget.
  unfold bind at 1. unfold iterate, ret at 1.
  rewrite (for_each_user_of_item _ _ _ Hcopy).
  reflexivity.
Qed.

(** The end-to-end example: two items, two users, in that order. *)
Lemma search_github_success_witness :
  fst (search_github (answering two_adas) "name" "Ada Lovelace" None nothing)
  = Return ([ada_user "ada1"; ada_user "ada2"], None).
Proof.
  refine (f_equal fst
            (proj1 (search_github_success (answering two_adas) "name" "Ada Lovelace"
                      None nothing two_adas _ [ada_item "ada1"; ada_item "ada2"]
                      [ada_user "ada1"; ada_user "ada2"]
                      eq_refl eq_refl _ eq_refl _ _))).
  - simpl. lia.
  - left. reflexivity.
  - repeat constructor; eexists; repeat split.
Defined.

(** ** Properties of [save_to_excel] *)

(** Once the row is built, [save_to_excel] is the cycle under its
    [except] clause: [True] after a cycle without error, [False] and one
    error line after a failed one. *)
Lemma save_to_excel_run E search_type input_data results entry w :
  new_entry E search_type input_data results = inr entry ->
  save_to_excel E search_type input_data results w =
    match read_modify_write E entry w with
    | (Return _, w1) =>
        (Return true, logged INFO "Results saved to 'github_search_results.xlsx'" w1)
    | (Raise e, w1) =>
        (Return false, logged ERROR ("Error saving to Excel: " ++ exn_str e) w1)
    end.
Proof.
  intro Hentry. unfold save_to_excel. rewrite Hentry.
  unfold lift, bind at 1, ret at 1, try_except, bind at 1.
  destruct (read_modify_write E entry w) as [[[] | e] w1]; [reflexivity | ].
  rewrite isinstance_Exception_all. reflexivity.
Qed.

Lemma read_back_nil E : read_back E [] = [].
Proof. reflexivity. Qed.

Lemma length_read_back E table :
  List.length (read_back E table) = List.length table.
Proof. unfold read_back. apply length_map. Qed.

(** A cycle that completes has read a sound store and has written the rows
    it read back followed by the new one. *)
Lemma read_modify_write_completes E entry w w1 :
  read_modify_write E entry w = (Return tt, w1) ->
  sound_store (store w)
  /\ w1 = written (read_back E (table_of (store w)) ++ [entry]) w.
Proof.
  unfold read_modify_write, bind, os_path_exists, read_excel, to_excel, ret,
    sound_store, written.
  cbv beta.
  destruct (store w) as [[table | ] | ] eqn:Hst; simpl;
    destruct (read_fault E) as [e | ]; rewrite ?Hst;
    destruct (write_fault E) as [[e' after] | ];
    intro H; inversion H; subst; (split; [eauto | reflexivity]).
Qed.

(** With a readable store and a write that does not fail the cycle
    completes. *)
Lemma read_modify_write_without_fault E entry w :
  readable E w -> write_fault E = None ->
  read_modify_write E entry w
  = (Return tt, written (read_back E (table_of (store w)) ++ [entry]) w).
Proof.
  intros Hs Hw.
  unfold read_modify_write, bind, os_path_exists, read_excel, to_excel, ret, written.
  cbv beta.
  destruct Hs as [Hs | [[table Hs] Hr]]; rewrite Hs; simpl;
    rewrite ?Hr, ?Hs, Hw; reflexivity.
Qed.

(** And only then. *)
Lemma read_modify_write_completes_iff E entry w :
  (exists w1, read_modify_write E entry w = (Return tt, w1))
  <-> readable E w /\ write_fault E = None.
Proof.
  split.
  - intros [w1 H]. revert H.
    unfold read_modify_write, bind, os_path_exists, read_excel, to_excel, ret,
      readable.
    cbv beta.
    destruct (store w) as [[table | ] | ] eqn:Hst; simpl;
      destruct (read_fault E) as [e | ]; rewrite ?Hst;
      destruct (write_fault E) as [[e' after] | ];
      intro H; inversion H; eauto 6.
  - intros [Hs Hw]. eexists. now apply read_modify_write_without_fault.
Qed.

Lemma str_items_of_strings i handles :
  str_items i (map PyStr handles) = inr handles.
Proof.
  revert i. induction handles as [ | h rest IH]; intro i; simpl;
    [reflexivity | now rewrite IH].
Qed.

(** When every login is a string, the row is built, and it is this one. *)
Lemma new_entry_of_handles E search_type input_data results handles :
  map login results = map PyStr handles ->
  new_entry E search_type input_data results =
    inr (text_row (strftime (datetime_now E)) search_type input_data
           (result_summary handles) (Z.of_nat (List.length results))).
Proof.
  intro Hl. unfold new_entry. rewrite Hl.
  destruct handles as [ | h rest]; [reflexivity | ].
  change (PyStr h :: map PyStr rest) with (map PyStr (h :: rest)).
  cbv iota. rewrite str_items_of_strings. reflexivity.
Qed.

Lemma str_items_inr values : forall i ss,
  str_items i values = inr ss -> values = map PyStr ss.
Proof.
  induction values as [ | v rest IH]; intros i ss; simpl.
  - now intros [= <-].
  - destruct v; try discriminate.
    destruct (str_items (i + 1) rest) as [e | ss'] eqn:Hrest; [discriminate | ].
    intros [= <-]. simpl. now rewrite (IH _ _ Hrest).
Qed.

(** A row that is built is the row of the handles. *)
Lemma new_entry_inr E search_type input_data results entry :
  new_entry E search_type input_data results = inr entry ->
  exists handles,
    map login results = map PyStr handles
    /\ entry = text_row (strftime (datetime_now E)) search_type input_data
                 (result_summary handles) (Z.of_nat (List.length results)).
Proof.
  unfold new_entry.
  destruct (map login results) as [ | v rest] eqn:Hl.
  - intros [= <-]. now exists [].
  - destruct (str_items 0 (v :: rest)) as [e | ss] eqn:Hs; [discriminate | ].
    intros [= <-]. exists ss. rewrite (str_items_inr _ _ _ Hs).
    split; [reflexivity | ].
    apply str_items_inr in Hs. destruct ss; [discriminate Hs | reflexivity].
Qed.

(** C3, as the claim has it: a user record whose login is not a string
    makes [save_to_excel] raise. The row is built before the [try], and
    the TypeError of [join] is not caught. *)
Lemma save_to_excel_login_not_a_string :
  save_to_excel working_disk "name" "ada"
    [UserData PyNone PyNone PyNone PyNone] nothing
  = (Raise (Exn TypeError "sequence item 0: expected str instance, NoneType found"),
     nothing).
Proof. reflexivity. Qed.

(** C3, amended: for every kind, input text, sequence of user records
    whose handles are strings, and state of the store, [save_to_excel]
    returns a boolean and raises nothing; it returns [True] exactly when the
    read-modify-write cycle completes without error, and when the cycle
    fails with an exception [e] it logs one error line carrying [str(e)] and
    returns [False]. *)
Theorem save_to_excel_reports E search_type input_data results handles w :
  map login results = map PyStr handles ->
  exists entry b w',
    new_entry E search_type input_data results = inr entry
    /\ save_to_excel E search_type input_data results w = (Return b, w')
    /\ (b = true <->
        exists w1, read_modify_write E entry w = (Return tt, w1))
    /\ (b = true <-> readable E w /\ write_fault E = None)
    /\ (b = false <->
        exists e w1, read_modify_write E entry w = (Raise e, w1))
    /\ (forall e w1, read_modify_write E entry w = (Raise e, w1) ->
        b = false
        /\ w' = logged ERROR ("Error saving to Excel: " ++ exn_str e) w1).
Proof.
  intro Hl. pose proof (new_entry_of_handles E search_type input_data _ _ Hl) as He.
  set (entry := text_row _ _ _ _ _) in He. exists entry.
  rewrite (save_to_excel_run _ _ _ _ _ _ He).
  destruct (read_modify_write E entry w) as [[[] | e] w1] eqn:Hrun.
  - exists true, (logged INFO "Results saved to 'github_search_results.xlsx'" w1).
    split; [exact He | split; [reflexivity | ] ].
    split; [split; [now exists w1 | reflexivity] | ].
    split; [split; [intros _ | reflexivity] | ].
    { apply (read_modify_write_completes_iff E entry w). now exists w1. }
    split; [split; [discriminate | now intros (e & w2 & [=])] | ].
    now intros e w2 [=].
  - exists false, (logged ERROR ("Error saving to Excel: " ++ exn_str e) w1).
    split; [exact He | split; [reflexivity | ] ].
    split; [split; [discriminate | now intros (w2 & [=])] | ].
    split; [split; [discriminate | intro Hok] | ].
    { apply (read_modify_write_completes_iff E entry w) in Hok.
      destruct Hok as [w2 Hok]. rewrite Hrun in Hok. discriminate Hok. }
    split; [split; [now exists e, w1 | reflexivity] | ].
    intros e' w2 [= <- <-]. now split.
Qed.

(** A write that is refused. *)
Lemma save_to_excel_reports_witness :
  exists entry b w',
    new_entry read_only_disk "name" "Ada Lovelace" [ada_user "ada1"] = inr entry
    /\ save_to_excel read_only_disk "name" "Ada Lovelace" [ada_user "ada1"] nothing
       = (Return b, w')
    /\ (b = true <->
        exists w1, read_modify_write read_only_disk entry nothing = (Return tt, w1))
    /\ (b = true <-> readable read_only_disk nothing /\ write_fault read_only_disk = None)
    /\ (b = false <->
        exists e w1, read_modify_write read_only_disk entry nothing = (Raise e, w1))
    /\ (forall e w1, read_modify_write read_only_disk entry nothing = (Raise e, w1) ->
        b = false
        /\ w' = logged ERROR ("Error saving to Excel: " ++ exn_str e) w1).
Proof.
  exact (save_to_excel_reports read_only_disk "name" "Ada Lovelace"
           [ada_user "ada1"] ["ada1"] nothing eq_refl).
Defined.

(** *** The row *)

Lemma range_forallb (P : Z -> bool) (lo : Z) (len : nat) :
  forallb (fun k => P (lo + Z.of_nat k)) (seq 0 len) = true ->
  forall n, lo <= n < lo + Z.of_nat len -> P n = true.
Proof.
  intros H n Hn. rewrite forallb_forall in H.
  specialize (H (Z.to_nat (n - lo))).
  replace (lo + Z.of_nat (Z.to_nat (n - lo))) with n in H by lia.
  apply H. apply in_seq. lia.
Qed.

Lemma two_digits n : 0 <= n <= 99 -> all_digits 2 (zero_padded 2 n) = true.
Proof.
  intro Hn.
  apply (range_forallb (fun n => all_digits 2 (zero_padded 2 n)) 0 100);
    [vm_compute; reflexivity | lia].
Qed.

Lemma four_digits n : 1000 <= n <= 9999 -> all_digits 4 (str_of_int n) = true.
Proof.
  intro Hn.
  apply (range_forallb (fun n => all_digits 4 (str_of_int n)) 1000 (Z.to_nat 9000));
    [vm_compute; reflexivity | lia].
Qed.

Lemma strftime_format d : clock_reading d -> timestamp_format (strftime d).
Proof.
  intros (Hy & Hm & Hd & HH & HM & HS).
  exists (str_of_int (year d)), (zero_padded 2 (month d)), (zero_padded 2 (day d)),
    (zero_padded 2 (hour d)), (zero_padded 2 (minute d)), (zero_padded 2 (second d)).
  split; [reflexivity | ].
  repeat split; (apply four_digits || apply two_digits); lia.
Qed.

(** The digits printed read as the number printed. *)
Lemma two_digits_value n :
  0 <= n <= 99 -> digits_value 0 false (zero_padded 2 n) = Some n.
Proof.
  intro Hn.
  assert (H : (match digits_value 0 false (zero_padded 2 n) with
               | Some m => m =? n
               | None => false
               end) = true).
  { apply (range_forallb
             (fun n => match digits_value 0 false (zero_padded 2 n) with
                       | Some m => m =? n
                       | None => false
                       end) 0 100); [vm_compute; reflexivity | lia]. }
  destruct (digits_value 0 false (zero_padded 2 n)) as [m | ]; [ | discriminate].
  apply Z.eqb_eq in H. now subst.
Qed.

Lemma four_digits_value n :
  1000 <= n <= 9999 -> digits_value 0 false (str_of_int n) = Some n.
Proof.
  intro Hn.
  assert (H : (match digits_value 0 false (str_of_int n) with
               | Some m => m =? n
               | None => false
               end) = true).
  { apply (range_forallb
             (fun n => match digits_value 0 false (str_of_int n) with
                       | Some m => m =? n
                       | None => false
                       end) 1000 (Z.to_nat 9000)); [vm_compute; reflexivity | lia]. }
  destruct (digits_value 0 false (str_of_int n)) as [m | ]; [ | discriminate].
  apply Z.eqb_eq in H. now subst.
Qed.

Lemma all_digits_2 s :
  all_digits 2 s = true -> exists a b, s = String a (String b "").
Proof.
  unfold all_digits. destruct s as [ | a [ | b [ | c r]]]; try discriminate.
  intros _. now exists a, b.
Qed.

Lemma all_digits_4 s :
  all_digits 4 s = true ->
  exists a b c d, s = String a (String b (String c (String d ""))).
Proof.
  unfold all_digits.
  destruct s as [ | a [ | b [ | c [ | d [ | e r]]]]]; try discriminate.
  intros _. now exists a, b, c, d.
Qed.

(** The timestamp reads back as the date and time it was printed from. *)
Lemma read_timestamp_strftime d :
  clock_reading d -> read_timestamp (strftime d) = Some d.
Proof.
  intros (Hy & Hm & Hd & HH & HM & HS).
  destruct d as [yr mo dy hr mi sc]. simpl in *.
  pose proof (four_digits_value yr Hy) as Vy.
  pose proof (two_digits_value mo ltac:(lia)) as Vm.
  pose proof (two_digits_value dy ltac:(lia)) as Vd.
  pose proof (two_digits_value hr ltac:(lia)) as VH.
  pose proof (two_digits_value mi ltac:(lia)) as VM.
  pose proof (two_digits_value sc ltac:(lia)) as VS.
  destruct (all_digits_4 _ (four_digits yr Hy)) as (y1 & y2 & y3 & y4 & Ey).
  destruct (all_digits_2 _ (two_digits mo ltac:(lia))) as (m1 & m2 & Em).
  destruct (all_digits_2 _ (two_digits dy ltac:(lia))) as (d1 & d2 & Ed).
  destruct (all_digits_2 _ (two_digits hr ltac:(lia))) as (h1 & h2 & Eh).
  destruct (all_digits_2 _ (two_digits mi ltac:(lia))) as (i1 & i2 & Ei).
  destruct (all_digits_2 _ (two_digits sc ltac:(lia))) as (s1 & s2 & Es).
  unfold read_timestamp, field, strftime. cbn [year month day hour minute second].
  rewrite Ey, Em, Ed, Eh, Ei, Es in *.
  cbn [append substring].
  now rewrite Vy, Vm, Vd, VH, VM, VS.
Qed.

(** C7: for every call of [save_to_excel] (the clock reading a date in a
    four-digit year) a row is built as soon as the handles of the users are
    strings, and the row built has: a timestamp of the form
    [YYYY-MM-DD HH:MM:SS] that reads back as the date and time of the call;
    the kind and the input as given; a Results cell that is the handles
    joined by [", "], or ["No results"] when there is no user; and a Result
    Count equal to the number of users. With no user the cells are
    ["No results"] and 0. This row is the one a successful call writes as
    the last row of the workbook. *)
Theorem save_to_excel_row E search_type input_data results :
  clock_reading (datetime_now E) ->
  (forall handles,
     map login results = map PyStr handles ->
     exists entry, new_entry E search_type input_data results = inr entry)
  /\ forall entry,
       new_entry E search_type input_data results = inr entry ->
       exists timestamp handles,
         map login results = map PyStr handles
         /\ Timestamp entry = CStr timestamp
         /\ timestamp_format timestamp
         /\ read_timestamp timestamp = Some (datetime_now E)
         /\ Search_Type entry = CStr search_type
         /\ Input entry = CStr input_data
         /\ Results entry =
              CStr match handles with
                   | [] => "No results"
                   | _ :: _ => join ", " handles
                   end
         /\ Result_Count entry = CInt (Z.of_nat (List.length results))
         /\ (results = [] ->
             Results entry = CStr "No results" /\ Result_Count entry = CInt 0)
         /\ (forall w w',
               save_to_excel E search_type input_data results w = (Return true, w') ->
               store w' =
                 Some (Workbook (read_back E (table_of (store w)) ++ [entry]))).
Proof.
  intro Hclock. split.
  - intros handles Hl. eexists. exact (new_entry_of_handles E _ _ _ _ Hl).
  - intros entry He.
    destruct (new_entry_inr _ _ _ _ _ He) as (handles & Hl & ->).
    exists (strftime (datetime_now E)), handles.
    split; [exact Hl | split; [reflexivity | ] ].
    split; [now apply strftime_format | ].
    split; [now apply read_timestamp_strftime | ].
    do 4 (split; [reflexivity | ]). split.
    + intros ->. destruct handles; [now split | discriminate Hl].
    + intros w w'. rewrite (save_to_excel_run _ _ _ _ _ _ He).
      destruct (read_modify_write E _ w) as [[[] | e] w1] eqn:Hrun;
        [ | discriminate].
      intros [= <-].
      now destruct (read_modify_write_completes _ _ _ _ Hrun) as [_ ->].
Qed.

(** The row of the end-to-end example. *)
Lemma save_to_excel_row_witness :
  exists timestamp handles,
    map login [ada_user "ada1"; ada_user "ada2"] = map PyStr handles
    /\ Timestamp (text_row "2024-03-07 09:05:00" "name" "Ada Lovelace" "ada1, ada2" 2)
       = CStr timestamp
    /\ timestamp_format timestamp
    /\ read_timestamp timestamp = Some (Datetime 2024 3 7 9 5 0).
Proof.
  destruct (proj2 (save_to_excel_row working_disk "name" "Ada Lovelace"
                     [ada_user "ada1"; ada_user "ada2"]
                     ltac:(unfold clock_reading; simpl; lia))
              (text_row "2024-03-07 09:05:00" "name" "Ada Lovelace" "ada1, ada2" 2)
              eq_refl)
    as (timestamp & handles & Hl & Ht & Hf & Hr & _).
  exists timestamp, handles. auto.
Defined.

(** *** Calls one after the other *)

Lemma row_of_call_matches c entry : row_of_call c entry -> row_matches c entry.
Proof. unfold row_of_call, row_matches. apply new_entry_inr. Qed.

Lemma record_call_entry table c entry :
  row_of_call c entry ->
  record_call table c = (read_back (call_env c) table ++ [entry])%list.
Proof. unfold row_of_call, record_call. now intros ->. Qed.

(** A call that returns [True] has appended its row to the rows it read
    back from a sound store. *)
Lemma save_call_appends c w w' :
  save_call c w = (Return true, w') ->
  exists entry,
    row_of_call c entry
    /\ sound_store (store w)
    /\ store w' =
         Some (Workbook (read_back (call_env c) (table_of (store w)) ++ [entry])).
Proof.
  unfold save_call, row_of_call.
  destruct (new_entry (call_env c) (call_search_type c) (call_input c)
              (call_results c)) as [e | entry] eqn:He.
  - unfold save_to_excel. rewrite He. discriminate.
  - rewrite (save_to_excel_run _ _ _ _ _ _ He).
    destruct (read_modify_write (call_env c) entry w) as [[[] | e] w1] eqn:Hrun;
      [ | discriminate].
    intros [= <-]. exists entry.
    destruct (read_modify_write_completes _ _ _ _ Hrun) as [Hs ->]. auto.
Qed.

Lemma for_each_app {A B} (f : A -> M B) xs ys w bs w' :
  for_each f (xs ++ ys) w = (Return bs, w') ->
  exists bs1 bs2 w1,
    for_each f xs w = (Return bs1, w1)
    /\ for_each f ys w1 = (Return bs2, w')
    /\ bs = (bs1 ++ bs2)%list.
Proof.
  revert w bs. induction xs as [ | x xs IH]; intros w bs; simpl.
  - intro H. now exists [], bs, w.
  - unfold bind, ret.
    destruct (f x w) as [[b | e] w0]; [ | discriminate].
    destruct (for_each f (xs ++ ys) w0) as [[bs0 | e] w2] eqn:Hrest;
      [ | discriminate].
    intros [= <- <-].
    destruct (IH _ _ Hrest) as (bs1 & bs2 & w1 & H1 & H2 & ->).
    rewrite H1. exists (b :: bs1), bs2, w1. auto.
Qed.

(** Successful calls from a sound store leave the table [rows_after]
    describes: each has read the rows back and added its own. *)
Lemma successful_calls_rows calls : forall w bs w',
  for_each save_call calls w = (Return bs, w') ->
  Forall (eq true) bs ->
  Forall (fun c => exists entry, row_of_call c entry) calls
  /\ table_of (store w') = rows_after (table_of (store w)) calls
  /\ (calls <> [] -> store w' = Some (Workbook (table_of (store w')))).
Proof.
  induction calls as [ | c rest IH]; intros w bs w' Hrun Hall.
  - injection Hrun as <- <-. split; [constructor | split; [reflexivity | congruence] ].
  - simpl in Hrun. unfold bind at 1 in Hrun.
    destruct (save_call c w) as [[b | e] w0] eqn:Hc; [ | discriminate].
    unfold bind at 1 in Hrun.
    destruct (for_each save_call rest w0) as [[bs0 | e] w2] eqn:Hrest;
      [ | discriminate].
    injection Hrun as <- <-. inversion Hall as [ | ? ? Hb Hall']; subst.
    destruct (save_call_appends _ _ _ Hc) as (entry & Hentry & _ & Hst).
    destruct (IH _ _ _ Hrest Hall') as (Hrows & Ht & Hfile).
    split; [constructor; [now exists entry | exact Hrows] | ].
    assert (Ht0 : table_of (store w0) = record_call (table_of (store w)) c)
      by (rewrite Hst, (record_call_entry _ _ _ Hentry); reflexivity).
    split.
    + rewrite Ht, Ht0. reflexivity.
    + intros _. destruct rest as [ | c' rest'].
      * injection Hrest as <- <-. now rewrite Hst.
      * apply Hfile. discriminate.
Qed.

Lemma rows_after_app table calls1 calls2 :
  rows_after table (calls1 ++ calls2) = rows_after (rows_after table calls1) calls2.
Proof. unfold rows_after. apply fold_left_app. Qed.

Lemma rows_after_length calls : forall table,
  Forall (fun c => exists entry, row_of_call c entry) calls ->
  List.length (rows_after table calls) = (List.length table + List.length calls)%nat.
Proof.
  induction calls as [ | c rest IH]; intros table Hall; simpl.
  - now rewrite Nat.add_0_r.
  - inversion Hall as [ | ? ? [entry Hentry] Hrest]; subst.
    change (rows_after table (c :: rest))
      with (rows_after (record_call table c) rest).
    rewrite (IH _ Hrest), (record_call_entry _ _ _ Hentry).
    rewrite length_app, length_read_back. simpl. lia.
Qed.

(** Where every call reads back the rows as they were written, the rows
    that were there stay, and the rows of the calls follow them. *)
Lemma rows_after_verbatim calls : forall table,
  Forall (fun c => exists entry, row_of_call c entry) calls ->
  read_verbatim table calls ->
  exists rows,
    Forall2 row_of_call calls rows
    /\ rows_after table calls = (table ++ rows)%list.
Proof.
  induction calls as [ | c rest IH]; intros table Hall Hv; simpl.
  - exists []. split; [constructor | now rewrite app_nil_r].
  - inversion Hall as [ | ? ? [entry Hentry] Hrest]; subst.
    destruct Hv as [Hsame Hv].
    destruct (IH _ Hrest Hv) as (rows & Hrows & Heq).
    exists (entry :: rows). split.
    + constructor; [exact Hentry | exact Hrows].
    + change (rows_after table (c :: rest))
        with (rows_after (record_call table c) rest).
      rewrite Heq, (record_call_entry _ _ _ Hentry), Hsame.
      now rewrite <- app_assoc.
Qed.

(** C5, as the claim has it: an earlier row does not always stay as it
    was. A search for the text [007] is recorded with the Input [007]; the
    next successful call reads the workbook back through pandas, which
    infers the number 7 for that cell, and writes the row back with it. *)
Lemma earlier_row_is_read_back :
  for_each save_call [leading_zero_call] nothing
  = (Return [true], snd (for_each save_call [leading_zero_call] nothing))
  /\ store (snd (for_each save_call [leading_zero_call] nothing))
     = Some (Workbook [text_row "2024-03-07 09:05:00" "name" "007" "No results" 0])
  /\ fst (for_each save_call [leading_zero_call; later_call] nothing)
     = Return [true; true]
  /\ store (snd (for_each save_call [leading_zero_call; later_call] nothing))
     = Some (Workbook
               [Row (CStr "2024-03-07 09:05:00") (CStr "name") (CInt 7)
                    (CStr "No results") (CInt 0);
                text_row "2024-03-07 09:06:00" "name" "ada" "No results" 0])
  /\ nth_error
       (table_of (store (snd (for_each save_call [leading_zero_call; later_call]
                                nothing)))) 0
     <> nth_error
          (table_of (store (snd (for_each save_call [leading_zero_call] nothing)))) 0.
Proof.
  repeat split. vm_compute. discriminate.
Qed.

(** C5, amended: N calls of [save_to_excel] made one after the other from
    an absent store, all returning [True], leave a store of exactly N rows,
    one per call, in call order. The first call creates the store with its
    one row, matching its input; each later call writes the rows that were
    there, as pandas reads them back, and its own row, matching its input,
    as the last. Where the calls read the rows back as they were written,
    the earlier rows are unchanged. *)
Theorem save_to_excel_sequence before after w bs w' :
  store w = None ->
  for_each save_call (before ++ after)%list w = (Return bs, w') ->
  Forall (eq true) bs ->
  exists bs1 w1,
    for_each save_call before w = (Return bs1, w1)
    /\ table_of (store w1) = rows_after [] before
    /\ List.length (table_of (store w1)) = List.length before
    /\ (before <> [] -> store w1 = Some (Workbook (table_of (store w1))))
    /\ table_of (store w') = rows_after (table_of (store w1)) after
    /\ List.length (table_of (store w')) = List.length (before ++ after)%list
    /\ ((before ++ after)%list <> [] ->
        store w' = Some (Workbook (table_of (store w'))))
    /\ (forall c rest,
          after = c :: rest ->
          exists entry,
            row_matches c entry
            /\ table_of (store w')
               = rows_after
                   (read_back (call_env c) (table_of (store w1)) ++ [entry]) rest)
    /\ (read_verbatim (table_of (store w1)) after ->
        exists rows,
          Forall2 row_matches after rows
          /\ table_of (store w') = (table_of (store w1) ++ rows)%list).
Proof.
  intros Hnone Hrun Hall.
  destruct (for_each_app _ _ _ _ _ _ Hrun) as (bs1 & bs2 & w1 & H1 & H2 & ->).
  apply Forall_app in Hall. destruct Hall as [Hall1 Hall2].
  destruct (successful_calls_rows _ _ _ _ H1 Hall1) as (He1 & Ht1 & Hf1).
  destruct (successful_calls_rows _ _ _ _ H2 Hall2) as (He2 & Ht2 & Hf2).
  rewrite Hnone in Ht1. simpl in Ht1.
  exists bs1, w1.
  split; [exact H1 | split; [exact Ht1 | ] ].
  assert (Hlen1 : List.length (table_of (store w1)) = List.length before)
    by (rewrite Ht1, (rows_after_length _ _ He1); reflexivity).
  split; [exact Hlen1 | split; [exact Hf1 | split; [exact Ht2 | ] ] ].
  split; [rewrite Ht2, (rows_after_length _ _ He2), Hlen1, length_app; reflexivity | ].
  split.
  { intro Hne. destruct after as [ | c rest].
    - injection H2 as <- <-. apply Hf1. now rewrite app_nil_r in Hne.
    - apply Hf2. discriminate. }
  split.
  - intros c rest ->. inversion He2 as [ | ? ? [entry Hentry] _]; subst.
    exists entry. split; [now apply row_of_call_matches | ].
    rewrite Ht2. change (rows_after (table_of (store w1)) (c :: rest))
      with (rows_after (record_call (table_of (store w1)) c) rest).
    now rewrite (record_call_entry _ _ _ Hentry).
  - intro Hv. destruct (rows_after_verbatim _ _ He2 Hv) as (rows & Hr & Heq).
    exists rows. split; [ | now rewrite Ht2].
    eapply Forall2_impl; [exact row_of_call_matches | exact Hr].
Qed.

(** Two calls from an absent store: two rows, in call order. *)
Lemma save_to_excel_sequence_witness :
  exists rows,
    Forall2 row_matches [second_call] rows
    /\ table_of (store (snd (for_each save_call [first_call; second_call] nothing)))
       = ([text_row "2024-03-07 09:05:00" "name" "Ada Lovelace" "ada1, ada2" 2]
          ++ rows)%list.
Proof.
  destruct (save_to_excel_sequence [first_call] [second_call] nothing
              [true; true]
              (snd (for_each save_call [first_call; second_call] nothing))
              eq_refl eq_refl (Forall_cons _ eq_refl (Forall_cons _ eq_refl (Forall_nil _))))
    as (bs1 & w1 & H1 & Ht1 & _ & _ & _ & _ & _ & _ & Hv).
  injection H1 as _ <-.
  apply Hv. split; reflexivity.
Defined.

(** *** Where the typing of the inputs matters *)

(** A payload item without the upstream fields makes the lookup raise: the
    generic clause answers, and no user is returned. *)
Remark search_github_item_without_login :
  fst (search_github (answering bare_item) "name" "ada" None nothing)
  = Return ([], Some "Error searching by name: 'login'").
Proof. reflexivity. Qed.

(** * Beyond the specification: what else the code shows *)

(** ** [search_github] with any kind *)

(** For a kind that is a string, [search_github_any] is [search_github]. *)
Lemma search_github_any_str E search_type query token :
  search_github_any E (Some search_type) query token
  = search_github E search_type query token.
Proof. reflexivity. Qed.

Lemma after_response_any_str E search_type query r :
  after_response_any E (Some search_type) query r
  = after_response E search_type query r.
Proof. reflexivity. Qed.

Lemma keeps_ret {A} (a : A) : keeps_world (ret a).
Proof. intro w. reflexivity. Qed.

Lemma keeps_raise {A} (e : exn) : keeps_world (@raise A e).
Proof. intro w. reflexivity. Qed.

Lemma keeps_lift {A} (r : exn + A) : keeps_world (lift r).
Proof. destruct r; [apply keeps_raise | apply keeps_ret]. Qed.

Lemma keeps_bind {A B} (m : M A) (k : A -> M B) :
  keeps_world m -> (forall a, keeps_world (k a)) -> keeps_world (bind m k).
Proof.
  intros Hm Hk w. unfold bind. specialize (Hm w).
  destruct (m w) as [[a | e] w1]; simpl in *; subst; [apply Hk | reflexivity].
Qed.

Lemma keeps_for_each {A B} (f : A -> M B) (xs : list A) :
  (forall x, keeps_world (f x)) -> keeps_world (for_each f xs).
Proof.
  intro Hf. induction xs as [ | x rest IH]; simpl.
  - apply keeps_ret.
  - apply keeps_bind; [apply Hf | intro y].
    apply keeps_bind; [exact IH | intro ys; apply keeps_ret].
Qed.

Lemma keeps_py_get v key d : keeps_world (py_get v key d).
Proof.
  destruct v; simpl; try apply keeps_raise.
  destruct (dict_lookup key entries); apply keeps_ret.
Qed.

Lemma keeps_len v : keeps_world (len v).
Proof. destruct v; simpl; try apply keeps_raise; apply keeps_ret. Qed.

Lemma keeps_iterate v : keeps_world (iterate v).
Proof. destruct v; simpl; try apply keeps_raise; apply keeps_ret. Qed.

Lemma keeps_getitem v key : keeps_world (getitem v key).
Proof.
  destruct v; simpl; try apply keeps_raise.
  destruct (dict_lookup key entries); [apply keeps_ret | apply keeps_raise].
Qed.

Lemma keeps_user_of_item v : keeps_world (user_of_item v).
Proof.
  unfold user_of_item.
  repeat (apply keeps_bind; [apply keeps_getitem | intro]). apply keeps_ret.
Qed.

Lemma keeps_raise_for_status r : keeps_world (raise_for_status r).
Proof.
  unfold raise_for_status.
  destruct (_ && _); [apply keeps_raise | ].
  destruct (_ && _); [apply keeps_raise | apply keeps_ret].
Qed.

Lemma keeps_capitalize_kind k : keeps_world (capitalize_kind k).
Proof. destruct k; [apply keeps_ret | apply keeps_raise]. Qed.

(** Running a computation that keeps the world, seen as an equation. *)
Lemma keeps_run {A} (m : M A) w o w' :
  keeps_world m -> m w = (o, w') -> w' = w.
Proof. intros Hm H. specialize (Hm w). rewrite H in Hm. exact Hm. Qed.

Lemma for_each_length {A B} (f : A -> M B) xs : forall w ys w',
  for_each f xs w = (Return ys, w') -> List.length ys = List.length xs.
Proof.
  induction xs as [ | x rest IH]; intros w ys w'; simpl.
  - now intros [= <- _].
  - unfold bind, ret.
    destruct (f x w) as [[y | e] w0]; [ | discriminate].
    destruct (for_each f rest w0) as [[ys0 | e] w1] eqn:Hrest; [ | discriminate].
    intros [= <- _]. simpl. now rewrite (IH _ _ _ Hrest).
Qed.

Lemma length_chars s : List.length (list_ascii_of_string s) = String.length s.
Proof. induction s as [ | c r IH]; simpl; [reflexivity | now rewrite IH]. Qed.

(** [len] counts what the loop goes through. *)
Lemma len_iterate v w n w1 w2 its w3 :
  len v w = (Return n, w1) -> iterate v w2 = (Return its, w3) ->
  n = Z.of_nat (List.length its).
Proof.
  destruct v; simpl; try discriminate; intros [= <- _] [= <- _].
  - now rewrite length_map, length_chars.
  - reflexivity.
  - now rewrite length_map.
Qed.

Lemma bind_Return_inv {A B} (m : M A) (k : A -> M B) w b w' :
  bind m k w = (Return b, w') ->
  exists a w1, m w = (Return a, w1) /\ k a w1 = (Return b, w').
Proof.
  unfold bind. destruct (m w) as [[a | e] w1]; [ | discriminate].
  intro H. now exists a, w1.
Qed.

Lemma py_get_any_world v key d w1 w2 :
  fst (py_get v key d w1) = fst (py_get v key d w2).
Proof.
  destruct v; simpl; try reflexivity.
  destruct (dict_lookup key entries); reflexivity.
Qed.

(** What the rate-limit branch returns when it returns. *)
Lemma rate_limit_returns_message E r w result w' :
  rate_limit E r w = (Return (Some result), w') ->
  rate_limited r
  /\ exists wait_time,
       0 <= wait_time
       /\ result = ([], Some (rate_limit_message wait_time))
       /\ w' = logged WARNING
                 ("Rate limit exceeded. Waiting for " ++ str_of_int wait_time
                  ++ " seconds") w.
Proof.
  intro H. pose proof (rate_limit_inversion _ _ _ _ _ H) as Hr.
  split; [exact Hr | ]. destruct Hr as [Hx (v & reset & Hv & Hreset)].
  rewrite (rate_limit_hit _ _ _ _ _ Hx Hv Hreset) in H. injection H as <- <-.
  eexists. split; [apply Z.le_max_l | split; reflexivity].
Qed.

Lemma raise_for_status_returns r w w' :
  raise_for_status r w = (Return tt, w') -> ~ 400 <= status_code r < 600.
Proof.
  intros H Hs. destruct (raise_for_status_raises r w Hs) as (e & He & _).
  rewrite He in H. discriminate H.
Qed.

(** The count logged is the number of users returned. *)
Lemma count_is_length results n w1 w2 users w3 w4 :
  (items <- py_get results "items" (PyList []) ;; len items) w1 = (Return n, w2) ->
  (items <- py_get results "items" (PyList []) ;;
   its <- iterate items ;;
   for_each user_of_item its) w3 = (Return users, w4) ->
  n = Z.of_nat (List.length users).
Proof.
  intros Hn Hu.
  apply bind_Return_inv in Hn. destruct Hn as (items & w1' & Hg & Hlen).
  apply bind_Return_inv in Hu. destruct Hu as (items' & w3' & Hg' & Hu).
  apply bind_Return_inv in Hu. destruct Hu as (its & w3'' & Hit & Hfor).
  pose proof (py_get_any_world results "items" (PyList []) w1 w3) as Hsame.
  rewrite Hg, Hg' in Hsame. simpl in Hsame. injection Hsame as <-.
  rewrite (len_iterate _ _ _ _ _ _ _ Hlen Hit).
  now rewrite (for_each_length _ _ _ _ _ Hfor).
Qed.

Lemma keeps_count results :
  keeps_world (items <- py_get results "items" (PyList []) ;; len items).
Proof. apply keeps_bind; [apply keeps_py_get | intro; apply keeps_len]. Qed.

Lemma keeps_users results :
  keeps_world (items <- py_get results "items" (PyList []) ;;
               its <- iterate items ;;
               for_each user_of_item its).
Proof.
  apply keeps_bind; [apply keeps_py_get | intro].
  apply keeps_bind; [apply keeps_iterate | intro].
  apply keeps_for_each. apply keeps_user_of_item.
Qed.

Lemma bind_inv {A B} (m : M A) (k : A -> M B) w o w' :
  bind m k w = (o, w') ->
  (exists a w1, m w = (Return a, w1) /\ k a w1 = (o, w'))
  \/ (exists e, m w = (Raise e, w') /\ o = Raise e).
Proof.
  unfold bind. destruct (m w) as [[a | e] w1].
  - intro H. left. now exists a, w1.
  - intros [= <- <-]. right. now exists e.
Qed.

(** The ways the [try] block ends once the request is answered. *)
Lemma after_response_any_cases E k q r w o w' :
  after_response_any E k q r w = (o, w') ->
  match o with
  | Return (users, error) =>
      (rate_limited r /\ users = []
       /\ exists wait_time,
            0 <= wait_time
            /\ error = Some (rate_limit_message wait_time)
            /\ w' = logged WARNING
                      ("Rate limit exceeded. Waiting for " ++ str_of_int wait_time
                       ++ " seconds") w)
      \/ (error = None /\ ~ 400 <= status_code r < 600
          /\ (exists results, json r = inr results)
          /\ exists s, k = Some s
                       /\ w' = logged INFO
                                 (found_line (capitalize s) q (List.length users)) w)
  | Raise e => w' = w \/ exists line, w' = logged INFO line w
  end.
Proof.
  intro H. unfold after_response_any in H.
  apply bind_inv in H. destruct H as [(limited & w1 & Hrl & H) | (e & Hrl & ->)].
  2:{ left. apply (rate_limit_inversion _ _ _ _ _ Hrl). }
  destruct limited as [result | ].
  { injection H as <- <-.
    destruct (rate_limit_returns_message _ _ _ _ _ Hrl)
      as (Hr & wait_time & Hw & -> & ->).
    left. split; [exact Hr | split; [reflexivity | ] ]. now exists wait_time. }
  pose proof (rate_limit_inversion _ _ _ _ _ Hrl) as Hw1. simpl in Hw1. subst w1.
  apply bind_inv in H. destruct H as [([] & w2 & Hrs & H) | (e & Hrs & ->)].
  2:{ left. exact (keeps_run _ _ _ _ (keeps_raise_for_status r) Hrs). }
  pose proof (keeps_run _ _ _ _ (keeps_raise_for_status r) Hrs). subst w2.
  pose proof (raise_for_status_returns _ _ _ Hrs) as Hstatus.
  apply bind_inv in H. destruct H as [(results & w2 & Hj & H) | (e & Hj & ->)].
  2:{ left. exact (keeps_run _ _ _ _ (keeps_lift (json r)) Hj). }
  pose proof (keeps_run _ _ _ _ (keeps_lift (json r)) Hj). subst w2.
  assert (Hjson : json r = inr results).
  { destruct (json r) as [e | x]; [discriminate Hj | ].
    injection Hj as ->. reflexivity. }
  apply bind_inv in H. destruct H as [(n & w2 & Hn & H) | (e & Hn & ->)].
  2:{ left. exact (keeps_run _ _ _ _ (keeps_count results) Hn). }
  pose proof (keeps_run _ _ _ _ (keeps_count results) Hn). subst w2.
  apply bind_inv in H. destruct H as [(kind_name & w2 & Hk & H) | (e & Hk & ->)].
  2:{ left. exact (keeps_run _ _ _ _ (keeps_capitalize_kind k) Hk). }
  pose proof (keeps_run _ _ _ _ (keeps_capitalize_kind k) Hk). subst w2.
  destruct k as [s | ]; [ | discriminate Hk]. injection Hk as <-.
  apply bind_inv in H. destruct H as [([] & w2 & Hlog & H) | (e & Hlog & ->)];
    [ | discriminate Hlog].
  injection Hlog as <-.
  apply bind_inv in H. destruct H as [(users & w2 & Hu & H) | (e & Hu & ->)].
  - pose proof (keeps_run _ _ _ _ (keeps_users results) Hu). subst w2.
    injection H as <- <-. right.
    split; [reflexivity | split; [exact Hstatus | split; [now exists results | ] ] ].
    exists s. split; [reflexivity | ].
    unfold found_line. now rewrite <- (count_is_length _ _ _ _ _ _ _ Hn Hu).
  - right. eexists. exact (keeps_run _ _ _ _ (keeps_users results) Hu).
Qed.

Lemma search_github_any_nonempty E k query token :
  truthy query = true ->
  search_github_any E k query token =
    try_except
      (response <- requests_get E "https://api.github.com/search/users"
                     (request_headers token)
                     [("q", query ++ " in:" ++ format_kind k)] 10 ;;
       after_response_any E k query response)
      (on_error (format_kind k)).
Proof. intro Hq. unfold search_github_any. rewrite Hq. reflexivity. Qed.

(** Every call of [search_github_any] returns, in one of the five ways of
    [search_outcome]. *)
Lemma search_github_any_outcome E k query token w :
  exists users error w',
    search_github_any E k query token w = (Return (users, error), w')
    /\ search_outcome E k query token w users error w'.
Proof.
  destruct (truthy query) eqn:Hq.
  2:{ destruct query; [ | discriminate Hq].
      eexists _, _, _. split; [reflexivity | now constructor]. }
  rewrite (search_github_any_nonempty _ _ _ _ Hq).
  unfold try_except, bind at 1, requests_get.
  fold (search_request (format_kind k) query token).
  set (rq := search_request (format_kind k) query token).
  fold (requested rq w).
  destruct (network E rq) as [e | r] eqn:Hnet.
  { rewrite on_error_returns. eexists _, _, _. split; [reflexivity | ].
    now apply Failed. }
  destruct (after_response_any E k query r (requested rq w)) as [o w1] eqn:Hrun.
  pose proof (after_response_any_cases _ _ _ _ _ _ _ Hrun) as Hcases.
  destruct o as [[users error] | e].
  - exists users, error, w1. split; [reflexivity | ].
    destruct Hcases as [(Hr & -> & wait_time & Hw & -> & ->)
                       | (-> & Hs & (results & Hj) & s & -> & ->)].
    + now apply (Rate_limited E k query token w r).
    + now apply (Found E (Some s) query token w r results s).
  - rewrite on_error_returns. eexists _, _, _. split; [reflexivity | ].
    destruct Hcases as [-> | (line & ->)].
    + now apply Failed.
    + now apply Failed_after_count.
Qed.

Lemma truthy_rate_limit_message wait_time :
  truthy (rate_limit_message wait_time) = true.
Proof. reflexivity. Qed.

Lemma truthy_error_message k e :
  truthy (context k e ++ ": " ++ exn_str e) = true.
Proof. unfold context. destruct (isinstance_RequestException e); reflexivity. Qed.

(** X1: [search_github] never returns users together with an error: every
    call returns, and in its result either the error is [None], or the list
    of users is empty and the error is a non-empty string (so that the test
    [if error] of a caller sees every error). *)
Theorem search_github_users_or_error E k query token w :
  exists users error w',
    search_github_any E k query token w = (Return (users, error), w')
    /\ (error = None
        \/ (users = [] /\ exists msg, error = Some msg /\ truthy msg = true)).
Proof.
  destruct (search_github_any_outcome E k query token w)
    as (users & error & w' & Hrun & Hout).
  exists users, error, w'. split; [exact Hrun | ].
  destruct Hout.
  - right. split; [reflexivity | ]. now eexists.
  - right. split; [reflexivity | ]. eexists. split; [reflexivity | ].
    apply truthy_rate_limit_message.
  - now left.
  - right. split; [reflexivity | ]. eexists. split; [reflexivity | ].
    apply truthy_error_message.
  - right. split; [reflexivity | ]. eexists. split; [reflexivity | ].
    apply truthy_error_message.
Qed.

(** The result of the end-to-end example, with the world it leaves. *)
Lemma two_adas_run :
  search_github_any (answering two_adas) (Some "name") "Ada Lovelace" None nothing
  = (Return ([ada_user "ada1"; ada_user "ada2"], None),
     logged INFO "Name search for 'Ada Lovelace' found 2 results"
       (requested (search_request "name" "Ada Lovelace" None) nothing)).
Proof. reflexivity. Qed.

(** X2: an error of [None] means a real success: the query was not empty,
    the request was answered with a status outside 4xx and 5xx, the answer
    decoded as JSON, the kind is a string, and the one line logged carries
    the number of users returned. *)
Theorem search_github_success_means E k query token w users w' :
  search_github_any E k query token w = (Return (users, None), w') ->
  truthy query = true
  /\ exists r results kind_name,
       network E (search_request (format_kind k) query token) = inr r
       /\ ~ 400 <= status_code r < 600
       /\ json r = inr results
       /\ k = Some kind_name
       /\ w' = logged INFO
                 (found_line (capitalize kind_name) query (List.length users))
                 (requested (search_request (format_kind k) query token) w).
Proof.
  intro H.
  destruct (search_github_any_outcome E k query token w)
    as (users0 & error0 & w0 & Hrun & Hout).
  rewrite Hrun in H. injection H as <- -> <-.
  inversion Hout as [ | | r results kind_name us Hq Hnet Hs Hj Hk | | ]; subst.
  split; [exact Hq | ]. exists r, results, kind_name.
  repeat (split; [assumption || reflexivity | ]). reflexivity.
Qed.

Lemma search_github_success_means_witness :
  truthy "Ada Lovelace" = true
  /\ exists r results kind_name,
       network (answering two_adas) (search_request "name" "Ada Lovelace" None) = inr r
       /\ ~ 400 <= status_code r < 600
       /\ json r = inr results
       /\ Some "name" = Some kind_name
       /\ logged INFO "Name search for 'Ada Lovelace' found 2 results"
            (requested (search_request "name" "Ada Lovelace" None) nothing)
          = logged INFO
              (found_line (capitalize kind_name) "Ada Lovelace"
                 (List.length [ada_user "ada1"; ada_user "ada2"]))
              (requested (search_request "name" "Ada Lovelace" None) nothing).
Proof.
  exact (search_github_success_means (answering two_adas) (Some "name")
           "Ada Lovelace" None nothing _ _ two_adas_run).
Defined.

(** X3: every call of [search_github] writes one line to the log, or two:
    when the answer has been counted and logged as found and the listing
    of its items then fails, the INFO line is followed by the ERROR line of
    the message returned. *)
Theorem search_github_log_lines E k query token w :
  exists users error w',
    search_github_any E k query token w = (Return (users, error), w')
    /\ ((exists lv line, log w' = (log w ++ [(lv, line)])%list)
        \/ (exists line msg,
              error = Some msg
              /\ log w' = (log w ++ [(INFO, line); (ERROR, msg)])%list)).
Proof.
  destruct (search_github_any_outcome E k query token w)
    as (users & error & w' & Hrun & Hout).
  exists users, error, w'. split; [exact Hrun | ].
  destruct Hout; simpl.
  - left. now eexists _, _.
  - left. now eexists _, _.
  - left. now eexists _, _.
  - left. now eexists _, _.
  - right. eexists _, _. split; [reflexivity | ]. now rewrite <- app_assoc.
Qed.

(** X4: called with the kind [None], as the route does for a form without
    a [search_type] field, [search_github] never returns a user: whatever
    the network answers, the result is the empty list with an error. *)
Theorem search_github_without_kind E query token w :
  exists msg w',
    search_github_any E None query token w = (Return ([], Some msg), w')
    /\ truthy msg = true.
Proof.
  destruct (search_github_any_outcome E None query token w)
    as (users & error & w' & Hrun & Hout).
  inversion Hout as [ | | r results kind_name us Hq Hnet Hs Hj Hk | | ]; subst;
    try discriminate Hk; eexists _, _; (split; [exact Hrun | ]).
  - reflexivity.
  - apply truthy_rate_limit_message.
  - apply truthy_error_message.
  - apply truthy_error_message.
Qed.

(** An answer that is counted, and whose listing then fails: two lines. *)
Remark search_github_counts_then_fails :
  log (snd (search_github_any (answering bare_item) (Some "name") "ada" None nothing))
  = [(INFO, "Name search for 'ada' found 1 results");
     (ERROR, "Error searching by name: 'login'")].
Proof. reflexivity. Qed.

(** ** [save_to_excel] and a store that fails *)

(** A failed cycle has sent and logged nothing, and has left the file as it
    was unless the write failed and left something else behind. *)
Lemma read_modify_write_fails E entry w e w1 :
  read_modify_write E entry w = (Raise e, w1) ->
  sent w1 = sent w /\ log w1 = log w
  /\ (store w1 = store w
      \/ (exists f, write_fault E = Some (e, Left_as f) /\ store w1 = f)).
Proof.
  unfold read_modify_write, bind, os_path_exists, read_excel, to_excel, ret.
  cbv beta.
  destruct (store w) as [[table | ] | ] eqn:Hst; simpl;
    destruct (read_fault E) as [e0 | ]; rewrite ?Hst;
    destruct (write_fault E) as [[e' [ | f]] | ];
    intro H; inversion H; subst; simpl; eauto 6.
Qed.

(** A file that cannot be read makes the cycle raise before any write. *)
Lemma read_modify_write_unreadable E entry w f :
  store w = Some f -> f = Corrupt \/ read_fault E <> None ->
  exists e, read_modify_write E entry w = (Raise e, w).
Proof.
  intros Hst Hbad.
  unfold read_modify_write, bind, os_path_exists, read_excel, to_excel, ret.
  cbv beta. rewrite Hst. simpl.
  destruct (read_fault E) as [e0 | ] eqn:Hr; [eexists; reflexivity | ].
  rewrite Hst. destruct Hbad as [-> | Hne]; [eexists; reflexivity | congruence].
Qed.

(** Whatever [save_to_excel] does, it sends nothing. *)
Lemma save_to_excel_outcome E search_type input_data results w :
  (exists e, new_entry E search_type input_data results = inl e
             /\ save_to_excel E search_type input_data results w = (Raise e, w))
  \/ (exists entry, new_entry E search_type input_data results = inr entry
        /\ ((exists w1, read_modify_write E entry w = (Return tt, w1)
               /\ save_to_excel E search_type input_data results w
                  = (Return true,
                     logged INFO "Results saved to 'github_search_results.xlsx'" w1))
            \/ (exists e w1, read_modify_write E entry w = (Raise e, w1)
                  /\ save_to_excel E search_type input_data results w
                     = (Return false,
                        logged ERROR ("Error saving to Excel: " ++ exn_str e) w1)))).
Proof.
  destruct (new_entry E search_type input_data results) as [e | entry] eqn:He.
  - left. exists e. split; [reflexivity | ].
    unfold save_to_excel. rewrite He. reflexivity.
  - right. exists entry. split; [reflexivity | ].
    rewrite (save_to_excel_run _ _ _ _ _ _ He).
    destruct (read_modify_write E entry w) as [[[] | e] w1].
    + left. now exists w1.
    + right. now exists e, w1.
Qed.

(** X5: a workbook that cannot be read is never overwritten: when the file
    exists and is corrupt, or reading it fails, [save_to_excel] leaves it
    exactly as it is, whatever the write would have done, and reports
    [False] (for users whose logins are strings). *)
Theorem save_to_excel_unreadable E search_type input_data results w f :
  store w = Some f ->
  f = Corrupt \/ read_fault E <> None ->
  store (snd (save_to_excel E search_type input_data results w)) = Some f
  /\ (forall handles,
        map login results = map PyStr handles ->
        fst (save_to_excel E search_type input_data results w) = Return false).
Proof.
  intros Hst Hbad.
  destruct (save_to_excel_outcome E search_type input_data results w)
    as [(e & He & ->) | (entry & He & Hrun)].
  - split; [exact Hst | ]. intros handles Hl.
    rewrite (new_entry_of_handles _ _ _ _ _ Hl) in He. discriminate He.
  - destruct (read_modify_write_unreadable E entry w f Hst Hbad) as [e Hraise].
    destruct Hrun as [(w1 & Hok & _) | (e' & w1 & Hfail & ->)].
    + rewrite Hraise in Hok. discriminate Hok.
    + rewrite Hraise in Hfail. injection Hfail as <- <-.
      split; [exact Hst | reflexivity].
Qed.

(** A world whose workbook is corrupt. *)
Lemma save_to_excel_unreadable_witness :
  store (snd (save_to_excel working_disk "name" "ada" [ada_user "ada1"]
                (World [] [] (Some Corrupt)))) = Some Corrupt
  /\ (forall handles,
        map login [ada_user "ada1"] = map PyStr handles ->
        fst (save_to_excel working_disk "name" "ada" [ada_user "ada1"]
               (World [] [] (Some Corrupt))) = Return false).
Proof.
  exact (save_to_excel_unreadable working_disk "name" "ada" [ada_user "ada1"]
           (World [] [] (Some Corrupt)) Corrupt eq_refl (or_introl eq_refl)).
Defined.

Lemma save_call_corrupt c w :
  store w = Some Corrupt ->
  store (snd (save_call c w)) = Some Corrupt
  /\ fst (save_call c w) <> Return true.
Proof.
  intro Hst. unfold save_call.
  destruct (save_to_excel_outcome (call_env c) (call_search_type c) (call_input c)
              (call_results c) w)
    as [(e & He & ->) | (entry & He & Hrun)].
  - split; [exact Hst | discriminate].
  - destruct (read_modify_write_unreadable (call_env c) entry w Corrupt Hst
                (or_introl eq_refl)) as [e Hraise].
    destruct Hrun as [(w1 & Hok & _) | (e' & w1 & Hfail & ->)].
    + rewrite Hraise in Hok. discriminate Hok.
    + rewrite Hraise in Hfail. injection Hfail as <- <-.
      split; [exact Hst | discriminate].
Qed.

Lemma for_each_save_call_corrupt calls : forall w o w',
  store w = Some Corrupt ->
  for_each save_call calls w = (o, w') ->
  store w' = Some Corrupt
  /\ (forall bs, o = Return bs -> Forall (eq false) bs).
Proof.
  induction calls as [ | c rest IH]; intros w o w' Hst H; simpl in H.
  - injection H as <- <-. split; [exact Hst | ]. intros bs [= <-]. constructor.
  - destruct (save_call_corrupt c w Hst) as [Hst1 Hnot].
    apply bind_inv in H. destruct H as [(b & w1 & Hc & H) | (e & Hc & ->)].
    2:{ rewrite Hc in Hst1. split; [exact Hst1 | discriminate]. }
    rewrite Hc in Hst1, Hnot. simpl in Hst1, Hnot.
    apply bind_inv in H. destruct H as [(bs0 & w2 & Hrest & H) | (e & Hrest & ->)].
    2:{ destruct (IH _ _ _ Hst1 Hrest) as [Hst2 _].
        split; [exact Hst2 | discriminate]. }
    destruct (IH _ _ _ Hst1 Hrest) as [Hst2 Hall].
    injection H as <- <-. split; [exact Hst2 | ].
    intros bs [= <-]. constructor; [ | now apply Hall].
    destruct b; [congruence | reflexivity].
Qed.

(** X6: once the workbook is corrupt it stays so: whatever calls of
    [save_to_excel] follow, none returns [True] and the file is still
    corrupt after them; no search is recorded until the file is removed. *)
Theorem corrupt_store_stays calls w :
  store w = Some Corrupt ->
  store (snd (for_each save_call calls w)) = Some Corrupt
  /\ (forall bs, fst (for_each save_call calls w) = Return bs ->
      Forall (eq false) bs).
Proof.
  intro Hst. destruct (for_each save_call calls w) as [o w'] eqn:H.
  exact (for_each_save_call_corrupt _ _ _ _ Hst H).
Qed.

Lemma corrupt_store_stays_witness :
  store (snd (for_each save_call [first_call; second_call]
                (World [] [] (Some Corrupt)))) = Some Corrupt
  /\ (forall bs,
        fst (for_each save_call [first_call; second_call]
               (World [] [] (Some Corrupt))) = Return bs ->
        Forall (eq false) bs).
Proof.
  exact (corrupt_store_stays [first_call; second_call]
           (World [] [] (Some Corrupt)) eq_refl).
Defined.

(** One call from a sound store, with a write that leaves the file alone
    when it fails: a [True] has written the rows read back and the row of
    the call, a [False] has left the file as it was. *)
Lemma save_call_step c w b w1 :
  sound_store (store w) -> gentle (call_env c) ->
  save_call c w = (Return b, w1) ->
  sound_store (store w1)
  /\ (if b then
        (exists entry, row_of_call c entry)
        /\ table_of (store w1) = record_call (table_of (store w)) c
      else store w1 = store w).
Proof.
  intros Hs Hg H. unfold save_call in H.
  destruct (save_to_excel_outcome (call_env c) (call_search_type c) (call_input c)
              (call_results c) w)
    as [(e & He & Hrun) | (entry & He & [(w2 & Hok & Hrun) | (e & w2 & Hfail & Hrun)])];
    rewrite Hrun in H; [discriminate H | | ]; injection H as <- <-.
  - destruct (read_modify_write_completes _ _ _ _ Hok) as [_ ->]. simpl.
    split; [right; eexists; reflexivity | ].
    split; [now exists entry | ].
    now rewrite (record_call_entry _ _ entry He).
  - destruct (read_modify_write_fails _ _ _ _ _ Hfail)
      as (_ & _ & [Hst | (f & Hw & _)]).
    + simpl. rewrite Hst. now split.
    + destruct (Hg _ _ Hw).
Qed.

Lemma failed_calls_leave_rows_gen calls : forall w bs w',
  sound_store (store w) ->
  Forall (fun c => gentle (call_env c)) calls ->
  for_each save_call calls w = (Return bs, w') ->
  sound_store (store w')
  /\ List.length bs = List.length calls
  /\ Forall (fun c => exists entry, row_of_call c entry) (kept calls bs)
  /\ table_of (store w') = rows_after (table_of (store w)) (kept calls bs).
Proof.
  induction calls as [ | c rest IH]; intros w bs w' Hs Hg H; simpl in H.
  - injection H as <- <-.
    split; [exact Hs | split; [reflexivity | split; [constructor | reflexivity] ] ].
  - inversion Hg as [ | ? ? Hgc Hgrest]; subst.
    apply bind_Return_inv in H. destruct H as (b & w1 & Hc & H).
    apply bind_Return_inv in H. destruct H as (bs0 & w2 & Hrest & H).
    injection H as <- <-.
    destruct (save_call_step _ _ _ _ Hs Hgc Hc) as [Hs1 Hb].
    destruct (IH _ _ _ Hs1 Hgrest Hrest) as (Hs2 & Hlen & Hrows & Ht).
    split; [exact Hs2 | split; [simpl; now rewrite Hlen | ] ].
    destruct b.
    + destruct Hb as (Hentry & Ht1). simpl.
      split; [now constructor | ]. rewrite Ht, Ht1. reflexivity.
    + simpl. split; [exact Hrows | ]. now rewrite Ht, Hb.
Qed.

(** X7: failed calls do not disturb the history: in any sequence of calls
    of [save_to_excel] from a store that is absent or a workbook, where no
    failed write alters the file, the table at the end is the one the calls
    that returned [True] build, in call order, each writing the rows as
    pandas reads them back and then its own: one row more per successful
    call, none for a failed one. Where the successful calls read the rows
    back as written, the rows at the end are the rows at the start followed
    by the rows of exactly these calls. *)
Theorem failed_calls_leave_rows calls w bs w' :
  sound_store (store w) ->
  Forall (fun c => gentle (call_env c)) calls ->
  for_each save_call calls w = (Return bs, w') ->
  List.length bs = List.length calls
  /\ sound_store (store w')
  /\ table_of (store w') = rows_after (table_of (store w)) (kept calls bs)
  /\ List.length (table_of (store w'))
     = (List.length (table_of (store w)) + List.length (kept calls bs))%nat
  /\ (read_verbatim (table_of (store w)) (kept calls bs) ->
      exists rows,
        Forall2 row_of_call (kept calls bs) rows
        /\ Forall2 row_matches (kept calls bs) rows
        /\ table_of (store w') = (table_of (store w) ++ rows)%list).
Proof.
  intros Hs Hg H.
  destruct (failed_calls_leave_rows_gen _ _ _ _ Hs Hg H)
    as (Hs' & Hlen & Hrows & Ht).
  split; [exact Hlen | split; [exact Hs' | split; [exact Ht | ] ] ].
  split; [rewrite Ht; now apply rows_after_length | ].
  intro Hv. destruct (rows_after_verbatim _ _ Hrows Hv) as (rows & Hr & Heq).
  exists rows. split; [exact Hr | split; [ | now rewrite Ht] ].
  eapply Forall2_impl; [exact row_of_call_matches | exact Hr].
Qed.

(** The refused call between the two calls of the example: two rows. *)
Lemma failed_calls_leave_rows_witness :
  List.length [true; false; true]
  = List.length [first_call; refused_call; second_call]
  /\ sound_store
       (store (snd (for_each save_call [first_call; refused_call; second_call]
                      nothing)))
  /\ table_of
       (store (snd (for_each save_call [first_call; refused_call; second_call]
                      nothing)))
     = rows_after [] [first_call; second_call]
  /\ List.length
       (table_of
          (store (snd (for_each save_call [first_call; refused_call; second_call]
                         nothing))))
     = 2%nat
  /\ (read_verbatim [] [first_call; second_call] ->
      exists rows,
        Forall2 row_of_call [first_call; second_call] rows
        /\ Forall2 row_matches [first_call; second_call] rows
        /\ table_of
             (store (snd (for_each save_call
                            [first_call; refused_call; second_call] nothing)))
           = rows).
Proof.
  refine (failed_calls_leave_rows [first_call; refused_call; second_call] nothing
            [true; false; true]
            (snd (for_each save_call [first_call; refused_call; second_call] nothing))
            (or_introl eq_refl) _ eq_refl).
  repeat constructor; intros e f H; discriminate H.
Defined.

(** ** The [search] route *)

Lemma lstrip_blank v : blank v = true -> lstrip v = "".
Proof.
  unfold blank. induction v as [ | c r IH]; simpl; [reflexivity | ].
  destruct (is_space c); [exact IH | discriminate].
Qed.

Lemma strip_blank v : blank v = true -> strip v = "".
Proof. intro H. unfold strip. now rewrite (lstrip_blank v H). Qed.

(** X8: a form whose query is absent, empty or made of blanks only never
    reaches [search_github]: the route flashes a warning and redirects to
    the index, and no request is sent, nothing is logged and nothing is
    recorded. *)
Theorem search_blank_query E form s :
  (form_get "query" form = None
   \/ exists v, form_get "query" form = Some v /\ blank v = true) ->
  search E form s =
    (Return (Redirect "/"),
     Site (flashes s ++ [("warning", "Please enter a search query")])
          (site_world s)).
Proof.
  intro H.
  assert (Hq : strip (form_get_or_empty "query" form) = "").
  { unfold form_get_or_empty.
    destruct H as [-> | (v & -> & Hv)]; [reflexivity | now apply strip_blank]. }
  unfold search. cbv zeta. rewrite Hq. reflexivity.
Qed.

Lemma search_blank_query_witness :
  search unreachable blank_form (fresh nothing) =
    (Return (Redirect "/"),
     Site [("warning", "Please enter a search query")] nothing).
Proof.
  refine (search_blank_query unreachable blank_form (fresh nothing) _).
  right. exists "   ". split; reflexivity.
Defined.

(** The route once [search_github] has returned. *)
Lemma search_run E form s users error w1 :
  truthy (form_query form) = true ->
  search_github_any E (form_get "search_type" form) (form_query form)
    (form_token form) (site_world s) = (Return (users, error), w1) ->
  search E form s =
    match error with
    | Some msg =>
        if truthy msg then
          (Return (Render "index.html"
                     (index_context (form_get "search_type" form) (form_query form))),
           Site (flashes s ++ [("danger", msg)]) w1)
        else
          match save_to_excel_any E (form_get "search_type" form) (form_query form)
                  users w1 with
          | (Return _, w2) =>
              (Return (Render "results.html"
                         (results_context (form_get "search_type" form)
                            (form_query form) users)),
               Site (flashes s) w2)
          | (Raise e, w2) => (Raise e, Site (flashes s) w2)
          end
    | None =>
        match save_to_excel_any E (form_get "search_type" form) (form_query form)
                users w1 with
        | (Return _, w2) =>
            (Return (Render "results.html"
                       (results_context (form_get "search_type" form)
                          (form_query form) users)),
             Site (flashes s) w2)
        | (Raise e, w2) => (Raise e, Site (flashes s) w2)
        end
    end.
Proof.
  intros Hq Hrun. unfold search. cbv zeta.
  fold (form_query form). fold (form_token form).
  rewrite Hq. cbn [negb].
  unfold bindW at 1, liftW at 1. rewrite Hrun. cbn [fst snd].
  destruct error as [msg | ]; cbn [truthy_opt].
  - destruct (truthy msg); [reflexivity | ].
    unfold bindW, liftW. cbn [site_world flashes].
    now destruct (save_to_excel_any _ _ _ _ _) as [[b | e] w2].
  - unfold bindW, liftW. cbn [site_world flashes].
    now destruct (save_to_excel_any _ _ _ _ _) as [[b | e] w2].
Qed.

Lemma search_outcome_keeps_store E k q tok w users error w' :
  search_outcome E k q tok w users error w' -> store w' = store w.
Proof. now destruct 1. Qed.

Lemma search_outcome_sent E k q tok w users error w' :
  truthy q = true ->
  search_outcome E k q tok w users error w' ->
  sent w' = (sent w ++ [search_request (format_kind k) q tok])%list.
Proof. intro Hq. destruct 1; try reflexivity. subst. discriminate Hq. Qed.

Lemma search_outcome_error E k q tok w users msg w' :
  search_outcome E k q tok w users (Some msg) w' -> truthy msg = true.
Proof.
  inversion 1; subst;
    [reflexivity | apply truthy_rate_limit_message
     | apply truthy_error_message | apply truthy_error_message].
Qed.

(** X9: a search that ends with an error is shown, not recorded: for a
    form with a query, whenever [search_github] returns an error the route
    flashes exactly that message as danger, renders the index page with the
    kind and the query, and leaves the workbook as it was. *)
Theorem search_error_not_recorded E form s :
  truthy (form_query form) = true ->
  exists users error w1,
    search_github_any E (form_get "search_type" form) (form_query form)
      (form_token form) (site_world s) = (Return (users, error), w1)
    /\ forall msg,
         error = Some msg ->
         search E form s =
           (Return (Render "index.html"
                      (index_context (form_get "search_type" form) (form_query form))),
            Site (flashes s ++ [("danger", msg)]) w1)
         /\ store w1 = store (site_world s).
Proof.
  intro Hq.
  destruct (search_github_any_outcome E (form_get "search_type" form)
              (form_query form) (form_token form) (site_world s))
    as (users & error & w1 & Hrun & Hout).
  exists users, error, w1. split; [exact Hrun | ].
  intros msg ->. rewrite (search_run _ _ _ _ _ _ Hq Hrun).
  rewrite (search_outcome_error _ _ _ _ _ _ _ _ Hout).
  split; [reflexivity | exact (search_outcome_keeps_store _ _ _ _ _ _ _ _ Hout)].
Qed.

Lemma search_error_not_recorded_witness :
  search unreachable ada_form (fresh nothing) =
    (Return (Render "index.html" [("search_type", VStr "name");
                                  ("query", VStr "Ada Lovelace")]),
     Site [("danger", "Request error searching by name: Connection refused")]
       (logged ERROR "Request error searching by name: Connection refused"
          (requested (search_request "name" "Ada Lovelace" None) nothing))).
Proof.
  destruct (search_error_not_recorded unreachable ada_form (fresh nothing) eq_refl)
    as (users & error & w1 & Hrun & H).
  vm_compute in Hrun. injection Hrun as <- <- <-.
  exact (proj1 (H _ eq_refl)).
Defined.

Lemma save_to_excel_keeps_sent E search_type input_data results w :
  sent (snd (save_to_excel E search_type input_data results w)) = sent w.
Proof.
  destruct (save_to_excel_outcome E search_type input_data results w)
    as [(e & _ & ->)
       | (entry & _ & [(w1 & Hok & ->) | (e & w1 & Hfail & ->)])].
  - reflexivity.
  - now destruct (read_modify_write_completes _ _ _ _ Hok) as [_ ->].
  - now destruct (read_modify_write_fails _ _ _ _ _ Hfail) as (Hs & _).
Qed.



(** X11: for a form with a query the route sends exactly one request, on
    every path, also when it raises: its [q] is the query without the
    blanks around it, followed by [in:] and the kind, and it carries the
    Authorization header [token <t>] for the token [t] of the form without
    the blanks around it, or no such header when the token is absent,
    empty or blanks only. *)
Theorem search_sends_one_request E form s :
  truthy (form_query form) = true ->
  sent (site_world (snd (search E form s)))
    = (sent (site_world s) ++ [form_request form])%list
  /\ req_params (form_request form)
     = [("q", form_query form ++ " in:"
              ++ format_kind (form_get "search_type" form))]
  /\ headers_get "Authorization" (req_headers (form_request form))
     = (if truthy (strip (form_get_or_empty "token" form))
        then Some ("token " ++ strip (form_get_or_empty "token" form))
        else None).
Proof.
  intro Hq. split; [ | split; [reflexivity | ] ].
  - destruct (search_github_any_outcome E (form_get "search_type" form)
                (form_query form) (form_token form) (site_world s))
      as (users & error & w1 & Hrun & Hout).
    pose proof (search_outcome_sent _ _ _ _ _ _ _ _ Hq Hout) as Hsent.
    rewrite (search_run _ _ _ _ _ _ Hq Hrun).
    assert (Hafter :
      sent (site_world (snd
        match save_to_excel_any E (form_get "search_type" form) (form_query form)
                users w1 with
        | (Return _, w2) =>
            (Return (Render "results.html"
                       (results_context (form_get "search_type" form)
                          (form_query form) users)),
             Site (flashes s) w2)
        | (Raise e, w2) => (@Raise view e, Site (flashes s) w2)
        end)) = sent w1).
    { pose proof (save_to_excel_keeps_sent E
                    (kind_cell (form_get "search_type" form))
                    (form_query form) users w1) as Hk.
      unfold save_to_excel_any.
      destruct (save_to_excel _ _ _ _ w1) as [[b | e] w2]; exact Hk. }
    destruct error as [msg | ].
    + rewrite (search_outcome_error _ _ _ _ _ _ _ _ Hout). exact Hsent.
    + rewrite Hafter. exact Hsent.
  - unfold form_request. simpl req_headers.
    rewrite request_headers_Authorization. unfold form_token, or_None.
    destruct (truthy (strip (form_get_or_empty "token" form))) eqn:Ht;
      [now rewrite Ht | reflexivity].
Qed.

Lemma search_sends_one_request_witness :
  sent (site_world (snd (search (answering two_adas) ada_form (fresh nothing))))
  = [Request "GET" "https://api.github.com/search/users"
       [("Accept", "application/vnd.github.v3+json")]
       [("q", "Ada Lovelace in:name")] 10].
Proof.
  exact (proj1 (search_sends_one_request (answering two_adas) ada_form
                  (fresh nothing) eq_refl)).
Defined.

(** X12: a form without a [search_type] field never gets a results page
    and is never recorded: whatever the network answers, the route renders
    the index page with an error flashed as danger and leaves the workbook
    as it was. *)
Theorem search_without_kind E form s :
  form_get "search_type" form = None ->
  truthy (form_query form) = true ->
  exists msg w1,
    search E form s =
      (Return (Render "index.html"
                 [("search_type", VNone); ("query", VStr (form_query form))]),
       Site (flashes s ++ [("danger", msg)]) w1)
    /\ store w1 = store (site_world s).
Proof.
  intros Hk Hq.
  destruct (search_github_any_outcome E (form_get "search_type" form)
              (form_query form) (form_token form) (site_world s))
    as (users & error & w1 & Hrun & Hout).
  pose proof (search_outcome_keeps_store _ _ _ _ _ _ _ _ Hout) as Hstore.
  rewrite (search_run _ _ _ _ _ _ Hq Hrun).
  destruct error as [msg | ].
  - rewrite (search_outcome_error _ _ _ _ _ _ _ _ Hout).
    exists msg, w1. unfold index_context. rewrite Hk. now split.
  - inversion Hout as [ | | r results kind_name us _ _ _ _ Hkind | | ]; subst.
    rewrite Hk in Hkind. discriminate Hkind.
Qed.

Lemma search_without_kind_witness :
  exists msg w1,
    search (answering two_adas) kindless_form (fresh nothing) =
      (Return (Render "index.html"
                 [("search_type", VNone); ("query", VStr "Ada Lovelace")]),
       Site [("danger", msg)] w1)
    /\ store w1 = None.
Proof.
  exact (search_without_kind (answering two_adas) kindless_form (fresh nothing)
           eq_refl eq_refl).
Defined.

(** ** The [history] and [download] routes *)

Lemma site_eta s : Site (flashes s) (site_world s) = s.
Proof. now destruct s. Qed.

Lemma history_absent E fl w :
  store w = None ->
  history E (Site fl w)
  = (Return (Redirect "/"),
     Site (fl ++ [("info", "No search history available")]) w).
Proof.
  intro Hst. unfold history, bindW at 1, liftW at 1, os_path_exists.
  cbn [site_world flashes]. rewrite Hst. reflexivity.
Qed.

(** [history] on a workbook that is read. *)
Lemma history_workbook E fl w table :
  store w = Some (Workbook table) -> read_fault E = None ->
  history E (Site fl w)
  = (Return (Render "history.html" [("searches", VRows (read_back E table))]),
     Site fl w).
Proof.
  intros Hst Hr.
  unfold history, bindW at 1, liftW at 1, os_path_exists.
  cbn [site_world flashes]. rewrite Hst.
  unfold bindW at 1, try_exceptW, bindW at 1, liftW at 1, read_excel.
  cbn [site_world flashes]. rewrite Hr, Hst. reflexivity.
Qed.

Lemma history_unreadable E fl w f :
  store w = Some f -> f = Corrupt \/ read_fault E <> None ->
  exists e,
    history E (Site fl w)
    = (Return (Redirect "/"),
       Site (fl ++ [("danger", "Error reading search history")])
            (logged ERROR ("Error reading history: " ++ exn_str e) w)).
Proof.
  intros Hst Hbad.
  unfold history, bindW at 1, liftW at 1, os_path_exists.
  cbn [site_world flashes]. rewrite Hst.
  unfold bindW at 1, try_exceptW, bindW at 1, liftW at 1, read_excel.
  cbn [site_world flashes].
  destruct (read_fault E) as [e0 | ] eqn:Hr.
  - rewrite isinstance_Exception_all. exists e0. reflexivity.
  - rewrite Hst. destruct Hbad as [-> | Hne]; [ | congruence].
    rewrite isinstance_Exception_all. eexists. reflexivity.
Qed.

(** X13: [history] only reads: it always returns a view and leaves the
    requests sent and the workbook as they were. Without a file it flashes
    an info message and redirects to the index; with a workbook that is
    read it renders its rows as pandas reads them, one per row of the
    workbook and in order, and flashes and logs nothing; with
    a file that cannot be read it logs one error line, flashes a danger
    message and redirects. *)
Theorem history_cases E s :
  exists v s',
    history E s = (Return v, s')
    /\ sent (site_world s') = sent (site_world s)
    /\ store (site_world s') = store (site_world s)
    /\ (store (site_world s) = None ->
        v = Redirect "/"
        /\ s' = Site (flashes s ++ [("info", "No search history available")])
                     (site_world s))
    /\ (forall table,
          store (site_world s) = Some (Workbook table) -> read_fault E = None ->
          v = Render "history.html" [("searches", VRows (read_back E table))]
          /\ List.length (read_back E table) = List.length table
          /\ s' = s)
    /\ (forall f,
          store (site_world s) = Some f -> f = Corrupt \/ read_fault E <> None ->
          v = Redirect "/"
          /\ exists e,
               s' = Site (flashes s ++ [("danger", "Error reading search history")])
                         (logged ERROR ("Error reading history: " ++ exn_str e)
                            (site_world s))).
Proof.
  destruct s as [fl w]. cbn [site_world flashes].
  destruct (store w) as [f | ] eqn:Hst.
  - assert (Hcase : (exists table, f = Workbook table /\ read_fault E = None)
                    \/ (f = Corrupt \/ read_fault E <> None)).
    { destruct f as [table | ]; [ | now right; left].
      destruct (read_fault E) as [e | ]; [right; right; discriminate | ].
      left. now exists table. }
    destruct Hcase as [(table & -> & Hr) | Hbad].
    + eexists _, _. split; [exact (history_workbook E fl w table Hst Hr) | ].
      cbn [site_world]. rewrite Hst.
      split; [reflexivity | split; [reflexivity | ] ].
      split; [discriminate | split].
      * intros t [= <-] _. split; [reflexivity | ].
        split; [apply length_read_back | reflexivity].
      * intros f [= <-] [H | H]; [discriminate H | congruence].
    + destruct (history_unreadable E fl w f Hst Hbad) as [e He].
      eexists _, _. split; [exact He | ].
      cbn [site_world logged sent store]. rewrite Hst.
      split; [reflexivity | split; [reflexivity | ] ].
      split; [discriminate | split].
      * intros t [= ->] Hr. destruct Hbad as [H | H]; [discriminate H | congruence].
      * intros f' _ _. split; [reflexivity | now exists e].
  - eexists _, _. split; [exact (history_absent E fl w Hst) | ].
    cbn [site_world]. rewrite Hst.
    split; [reflexivity | split; [reflexivity | ] ].
    split; [now split | split]; intros; discriminate.
Qed.

(** A site whose workbook is corrupt. *)
Lemma history_cases_witness :
  exists v s',
    history working_disk (fresh (World [] [] (Some Corrupt))) = (Return v, s')
    /\ v = Redirect "/"
    /\ exists e,
         s' = Site [("danger", "Error reading search history")]
                   (logged ERROR ("Error reading history: " ++ exn_str e)
                      (World [] [] (Some Corrupt))).
Proof.
  destruct (history_cases working_disk (fresh (World [] [] (Some Corrupt))))
    as (v & s' & Hrun & _ & _ & _ & _ & Hbad).
  exists v, s'. split; [exact Hrun | ].
  exact (Hbad Corrupt eq_refl (or_introl eq_refl)).
Defined.

(** X14: what is recorded is what the history shows: after calls of
    [save_to_excel] made one after the other from an absent store, all
    returning [True], [history] renders exactly one row per call, in call
    order: the rows the calls have built, as pandas reads them back. Where
    every reading gives the rows as written, each row holds the time, kind,
    input, summary and count of its call. *)
Theorem history_after_saves E calls w bs w' fl :
  store w = None ->
  calls <> [] ->
  for_each save_call calls w = (Return bs, w') ->
  Forall (eq true) bs ->
  read_fault E = None ->
  history E (Site fl w')
  = (Return (Render "history.html"
               [("searches", VRows (read_back E (rows_after [] calls)))]),
     Site fl w')
  /\ List.length (read_back E (rows_after [] calls)) = List.length calls
  /\ (read_verbatim [] calls ->
      read_back E (rows_after [] calls) = rows_after [] calls ->
      exists rows,
        Forall2 row_matches calls rows
        /\ history E (Site fl w')
           = (Return (Render "history.html" [("searches", VRows rows)]),
              Site fl w')).
Proof.
  intros Hnone Hne Hrun Hall Hr.
  destruct (successful_calls_rows _ _ _ _ Hrun Hall) as (Hrows & Ht & Hfile).
  rewrite Hnone in Ht. simpl in Ht.
  specialize (Hfile Hne). rewrite Ht in Hfile.
  pose proof (history_workbook E fl w' _ Hfile Hr) as Hh.
  split; [exact Hh | split].
  - rewrite length_read_back. now rewrite (rows_after_length _ _ Hrows).
  - intros Hv Hsame.
    destruct (rows_after_verbatim _ _ Hrows Hv) as (rows & Hr2 & Heq).
    exists rows. split.
    + eapply Forall2_impl; [exact row_of_call_matches | exact Hr2].
    + rewrite Hh, Hsame, Heq. reflexivity.
Qed.

Lemma history_after_saves_witness :
  exists rows,
    Forall2 row_matches [first_call; second_call] rows
    /\ history working_disk
         (Site [] (snd (for_each save_call [first_call; second_call] nothing)))
       = (Return (Render "history.html" [("searches", VRows rows)]),
          Site [] (snd (for_each save_call [first_call; second_call] nothing))).
Proof.
  refine (proj2 (proj2
            (history_after_saves working_disk [first_call; second_call] nothing
               [true; true] _ [] eq_refl _ eq_refl _ eq_refl)) _ eq_refl).
  - discriminate.
  - repeat constructor.
  - split; [reflexivity | split; reflexivity].
Defined.

(** X15: [download] asks only whether the file exists, and changes
    nothing: after a [save_to_excel] that returned [True] it sends the
    workbook as an attachment; it sends a corrupt file as well, which
    [history] cannot show; without a file it flashes a warning and
    redirects to the index. *)
Theorem download_cases s :
  (forall f, store (site_world s) = Some f ->
     download s = (Return (SendFile "github_search_results.xlsx" true), s))
  /\ (store (site_world s) = None ->
      download s =
        (Return (Redirect "/"),
         Site (flashes s ++ [("warning", "No search results file exists yet")])
              (site_world s)))
  /\ (forall E search_type input_data results w,
        save_to_excel E search_type input_data results w
        = (Return true, site_world s) ->
        download s = (Return (SendFile "github_search_results.xlsx" true), s)).
Proof.
  assert (Hfile : forall f, store (site_world s) = Some f ->
            download s = (Return (SendFile "github_search_results.xlsx" true), s)).
  { intros f Hst. unfold download, bindW, liftW, os_path_exists.
    rewrite Hst. unfold retW. now rewrite site_eta. }
  split; [exact Hfile | split].
  - intro Hst. unfold download, bindW, liftW, os_path_exists.
    now rewrite Hst.
  - intros E search_type input_data results w Hsave.
    destruct (save_call_appends (Call E search_type input_data results) w
                (site_world s) Hsave) as (entry & _ & _ & Hst).
    exact (Hfile _ Hst).
Qed.

Lemma download_cases_witness :
  download (fresh (World [] [] (Some Corrupt)))
    = (Return (SendFile "github_search_results.xlsx" true),
       fresh (World [] [] (Some Corrupt)))
  /\ download (fresh nothing)
     = (Return (Redirect "/"),
        Site [("warning", "No search results file exists yet")] nothing).
Proof.
  split.
  - exact (proj1 (download_cases (fresh (World [] [] (Some Corrupt)))) Corrupt eq_refl).
  - exact (proj1 (proj2 (download_cases (fresh nothing))) eq_refl).
Defined.

(** ** What the [search] route lets through *)

Lemma str_items_inl values : forall i e,
  str_items i values = inl e ->
  exn_cls e = TypeError /\ ~ exists handles, values = map PyStr handles.
Proof.
  induction values as [ | v rest IH]; intros i e; simpl; [discriminate | ].
  destruct v;
    try (intros [= <-]; split; [reflexivity | ];
         intros ([ | h hs] & H); discriminate H).
  destruct (str_items (i + 1) rest) as [e' | ss] eqn:Hrest; [ | discriminate].
  intros [= <-]. destruct (IH _ _ Hrest) as [Hcls Hnot].
  split; [exact Hcls | ]. intros ([ | h hs] & H); [discriminate H | ].
  injection H as _ H. apply Hnot. now exists hs.
Qed.

Lemma new_entry_inl E search_type input_data results e :
  new_entry E search_type input_data results = inl e ->
  exn_cls e = TypeError
  /\ ~ exists handles, map login results = map PyStr handles.
Proof.
  unfold new_entry.
  destruct (map login results) as [ | v rest] eqn:Hl; [discriminate | ].
  destruct (str_items 0 (v :: rest)) as [e' | ss] eqn:Hs; [ | discriminate].
  intros [= <-]. exact (str_items_inl _ _ _ Hs).
Qed.

(** X16: the [search] route raises in one case only: [search_github] has
    succeeded and a login it returned is not a string; the exception is
    then the TypeError of [join], raised by [save_to_excel] while it builds
    the row, before anything is read or written. In every other case the
    route returns a view. *)
Theorem search_raises_only_on_bad_login E form s e s' :
  search E form s = (Raise e, s') ->
  exn_cls e = TypeError
  /\ exists users w1,
       search_github_any E (form_get "search_type" form) (form_query form)
         (form_token form) (site_world s) = (Return (users, None), w1)
       /\ (~ exists handles, map login users = map PyStr handles)
       /\ s' = Site (flashes s) w1.
Proof.
  intro H.
  destruct (truthy (form_query form)) eqn:Hq.
  2:{ unfold search in H. cbv zeta in H. fold (form_query form) in H.
      rewrite Hq in H. discriminate H. }
  destruct (search_github_any_outcome E (form_get "search_type" form)
              (form_query form) (form_token form) (site_world s))
    as (users & error & w1 & Hrun & Hout).
  rewrite (search_run _ _ _ _ _ _ Hq Hrun) in H.
  destruct error as [msg | ].
  { rewrite (search_outcome_error _ _ _ _ _ _ _ _ Hout) in H. discriminate H. }
  unfold save_to_excel_any in H.
  destruct (save_to_excel_outcome E (kind_cell (form_get "search_type" form))
              (form_query form) users w1)
    as [(e0 & He & Hsave)
       | (entry & _ & [(w2 & _ & Hsave) | (e0 & w2 & _ & Hsave)])];
    rewrite Hsave in H; try discriminate H.
  injection H as <- <-.
  destruct (new_entry_inl _ _ _ _ _ He) as [Hcls Hnot].
  split; [exact Hcls | ]. now exists users, w1.
Qed.

Lemma search_raises_only_on_bad_login_witness :
  exn_cls (Exn TypeError "sequence item 0: expected str instance, NoneType found")
  = TypeError
  /\ exists users w1,
       search_github_any (answering null_login) (form_get "search_type" ada_form)
         (form_query ada_form) (form_token ada_form) (site_world (fresh nothing))
       = (Return (users, None), w1)
       /\ (~ exists handles, map login users = map PyStr handles)
       /\ snd (search (answering null_login) ada_form (fresh nothing))
          = Site (flashes (fresh nothing)) w1.
Proof.
  exact (search_raises_only_on_bad_login (answering null_login) ada_form
           (fresh nothing) _ _ eq_refl).
Defined.
